(** * Indicium-Supra: engine lifecycle, termination guard and dispatch

    A shallow embedding of [src/Indicium-Supra/Engine.cpp] and
    [src/Indicium-Supra/Engine.h].

    Pointers, handles and function pointers are integers, [0] being the
    null value.  The process is a record holding the global registry
    [g_EngineHostInstances], the engine structures and the payload blocks
    that live on the C heap, and the trace of every call the code makes to
    the operating system, the interception library, the logger and the
    host's callbacks.  Results of operating-system calls are supplied by an
    environment record, so that each branch of the code can be reached.
    Dereferencing a pointer that addresses no engine structure, or the
    null pointer that [spdlog::get] yields while no logger is registered,
    has no defined behaviour in the source; the embedding returns [None]
    there.  An exception that leaves a function is an outcome of its own,
    beside the error codes. *)

From Stdlib Require Import ZArith NArith List String Lia.
From Stdlib.Strings Require Import Byte.
From stdpp Require Import base option list sorting gmap strings fin_maps.

Open Scope Z_scope.

(** ** Machine types *)

Abbreviation HMODULE := Z (only parsing).
Abbreviation HANDLE := Z (only parsing).
Abbreviation PVOID := Z (only parsing).
Abbreviation FNPTR := Z (only parsing).
Abbreviation UINT := Z (only parsing).
Abbreviation DWORD := Z (only parsing).
Abbreviation PINDICIUM_ENGINE := Z (only parsing).

Definition nullptr : Z := 0.

(** [if (p)] on a pointer or handle. *)
Definition nonnull (p : Z) : bool := negb (p =? 0).

(** Modelled from the spec: the error codes of [IndiciumCore.h], which is
    not part of the sources at hand; the constructors are the ones the
    code returns, the spec's section 6 lists them. *)
Inductive INDICIUM_ERROR :=
| INDICIUM_ERROR_NONE
| INDICIUM_ERROR_INVALID_ENGINE_HANDLE
| INDICIUM_ERROR_CREATE_THREAD_FAILED
| INDICIUM_ERROR_ENGINE_ALLOCATION_FAILED
| INDICIUM_ERROR_ENGINE_ALREADY_ALLOCATED
| INDICIUM_ERROR_INVALID_HMODULE_HANDLE
| INDICIUM_ERROR_REFERENCE_INCREMENT_FAILED
| INDICIUM_ERROR_CONTEXT_ALLOCATION_FAILED.

#[global] Instance INDICIUM_ERROR_eq_dec : EqDecision INDICIUM_ERROR.
Proof. solve_decision. Defined.

(** Modelled from the spec: [INDICIUM_D3D_VERSION]; a zeroed engine holds
    the value [0], the "unknown" version. *)
Abbreviation INDICIUM_D3D_VERSION := Z (only parsing).

(** Modelled from the spec: the configuration structure of
    [IndiciumCore.h], with the options the code reads. *)
Record INDICIUM_ENGINE_CONFIG := {
  EvtIndiciumGameHooked : FNPTR;
  EvtIndiciumGamePreExit : FNPTR;
  LogFilePath : string;
  EnableLogging : bool
}.

#[global] Instance INDICIUM_ENGINE_CONFIG_eq_dec :
  EqDecision INDICIUM_ENGINE_CONFIG.
Proof. solve_decision. Defined.

Definition zero_config : INDICIUM_ENGINE_CONFIG :=
  {| EvtIndiciumGameHooked := 0; EvtIndiciumGamePreExit := 0;
     LogFilePath := ""; EnableLogging := false |}.

(** A callback structure is a structure of function pointers, one field
    per event.  It is a finite map from the field name to the pointer; a
    field that the map does not hold is null, as after [ZeroMemory]. *)
Abbreviation EVENT_CALLBACKS := (gmap string Z) (only parsing).

Definition slot (tbl : gmap string Z) (name : string) : FNPTR :=
  default 0 (tbl !! name).

(** [INDICIUM_ENGINE] of Engine.h.  The [RenderPipeline] union and the
    [CoreAudio] structure are only touched by the backend worker and are
    left out. *)
Record INDICIUM_ENGINE := {
  HostInstance : HMODULE;
  GameVersion : INDICIUM_D3D_VERSION;
  EngineConfig : INDICIUM_ENGINE_CONFIG;
  EventsD3D9 : gmap string Z;
  EventsD3D10 : gmap string Z;
  EventsD3D11 : gmap string Z;
  EventsD3D12 : gmap string Z;
  EventsARC : gmap string Z;
  EngineThread : HANDLE;
  EngineCancellationEvent : HANDLE;
  CustomContext : PVOID
}.

#[global] Instance INDICIUM_ENGINE_eq_dec : EqDecision INDICIUM_ENGINE.
Proof. solve_decision. Defined.

(** [ZeroMemory(engine, sizeof(INDICIUM_ENGINE))] *)
Definition zero_engine : INDICIUM_ENGINE :=
  {| HostInstance := 0; GameVersion := 0; EngineConfig := zero_config;
     EventsD3D9 := ∅; EventsD3D10 := ∅; EventsD3D11 := ∅;
     EventsD3D12 := ∅; EventsARC := ∅;
     EngineThread := 0; EngineCancellationEvent := 0; CustomContext := 0 |}.

Definition set_HostInstance (h : HMODULE) (e : INDICIUM_ENGINE) :=
  {| HostInstance := h; GameVersion := GameVersion e;
     EngineConfig := EngineConfig e;
     EventsD3D9 := EventsD3D9 e; EventsD3D10 := EventsD3D10 e;
     EventsD3D11 := EventsD3D11 e; EventsD3D12 := EventsD3D12 e;
     EventsARC := EventsARC e;
     EngineThread := EngineThread e;
     EngineCancellationEvent := EngineCancellationEvent e;
     CustomContext := CustomContext e |}.

Definition set_EngineConfig (c : INDICIUM_ENGINE_CONFIG) (e : INDICIUM_ENGINE) :=
  {| HostInstance := HostInstance e; GameVersion := GameVersion e;
     EngineConfig := c;
     EventsD3D9 := EventsD3D9 e; EventsD3D10 := EventsD3D10 e;
     EventsD3D11 := EventsD3D11 e; EventsD3D12 := EventsD3D12 e;
     EventsARC := EventsARC e;
     EngineThread := EngineThread e;
     EngineCancellationEvent := EngineCancellationEvent e;
     CustomContext := CustomContext e |}.

Definition set_EngineThread (h : HANDLE) (e : INDICIUM_ENGINE) :=
  {| HostInstance := HostInstance e; GameVersion := GameVersion e;
     EngineConfig := EngineConfig e;
     EventsD3D9 := EventsD3D9 e; EventsD3D10 := EventsD3D10 e;
     EventsD3D11 := EventsD3D11 e; EventsD3D12 := EventsD3D12 e;
     EventsARC := EventsARC e;
     EngineThread := h;
     EngineCancellationEvent := EngineCancellationEvent e;
     CustomContext := CustomContext e |}.

Definition set_EngineCancellationEvent (h : HANDLE) (e : INDICIUM_ENGINE) :=
  {| HostInstance := HostInstance e; GameVersion := GameVersion e;
     EngineConfig := EngineConfig e;
     EventsD3D9 := EventsD3D9 e; EventsD3D10 := EventsD3D10 e;
     EventsD3D11 := EventsD3D11 e; EventsD3D12 := EventsD3D12 e;
     EventsARC := EventsARC e;
     EngineThread := EngineThread e;
     EngineCancellationEvent := h;
     CustomContext := CustomContext e |}.

Definition set_CustomContext (p : PVOID) (e : INDICIUM_ENGINE) :=
  {| HostInstance := HostInstance e; GameVersion := GameVersion e;
     EngineConfig := EngineConfig e;
     EventsD3D9 := EventsD3D9 e; EventsD3D10 := EventsD3D10 e;
     EventsD3D11 := EventsD3D11 e; EventsD3D12 := EventsD3D12 e;
     EventsARC := EventsARC e;
     EngineThread := EngineThread e;
     EngineCancellationEvent := EngineCancellationEvent e;
     CustomContext := p |}.

(** The backend variants that own a dispatch table. *)
Inductive Backend := D3D9 | D3D10 | D3D11 | D3D12 | ARC.

#[global] Instance Backend_eq_dec : EqDecision Backend.
Proof. solve_decision. Defined.

Definition Events (b : Backend) (e : INDICIUM_ENGINE) : gmap string Z :=
  match b with
  | D3D9 => EventsD3D9 e
  | D3D10 => EventsD3D10 e
  | D3D11 => EventsD3D11 e
  | D3D12 => EventsD3D12 e
  | ARC => EventsARC e
  end.

Definition set_Events (b : Backend) (t : gmap string Z) (e : INDICIUM_ENGINE) :=
  {| HostInstance := HostInstance e; GameVersion := GameVersion e;
     EngineConfig := EngineConfig e;
     EventsD3D9 := (if decide (b = D3D9) then t else EventsD3D9 e);
     EventsD3D10 := (if decide (b = D3D10) then t else EventsD3D10 e);
     EventsD3D11 := (if decide (b = D3D11) then t else EventsD3D11 e);
     EventsD3D12 := (if decide (b = D3D12) then t else EventsD3D12 e);
     EventsARC := (if decide (b = ARC) then t else EventsARC e);
     EngineThread := EngineThread e;
     EngineCancellationEvent := EngineCancellationEvent e;
     CustomContext := CustomContext e |}.

(** ** The C heap of payload blocks *)

(** A block returned by [malloc]: its cells, [None] for a cell that was
    never written, or the mark that it was handed back to [free]. *)
Inductive Block :=
| Live (cells : list (option Byte.byte))
| Freed.

#[global] Instance byte_eq_dec : EqDecision Byte.byte := Byte.byte_eq_dec.

#[global] Instance Block_eq_dec : EqDecision Block.
Proof. solve_decision. Defined.

(** ** Observable calls *)

Inductive Level := lvl_debug | lvl_info | lvl_warn | lvl_error.

#[global] Instance Level_eq_dec : EqDecision Level.
Proof. solve_decision. Defined.

Inductive Event :=
| EvDetourAttach                      (* DetourAttach(&RealExitProcess, FakeExitProcess), committed *)
| EvDetourDetach                      (* DetourDetach(&RealExitProcess, FakeExitProcess), committed *)
| EvGamePreExit (cb : FNPTR) (engine : PINDICIUM_ENGINE)
| EvGameHooked (cb : FNPTR) (engine : PINDICIUM_ENGINE) (version : INDICIUM_D3D_VERSION)
| EvCallback (cb : FNPTR) (args : list Z)
| EvSetEvent (h : HANDLE)
| EvWaitForSingleObject (h : HANDLE) (ms : Z)
| EvTerminateThread (h : HANDLE) (code : Z)
| EvCloseHandle (h : HANDLE)
| EvGetModuleHandleEx (h : HMODULE) (ok : bool)
| EvMallocEngine (ret : PINDICIUM_ENGINE)
| EvCreateEvent (h : HANDLE)
| EvCreateThread (arg : PINDICIUM_ENGINE) (h : HANDLE)
| EvMalloc (size : N) (ret : PVOID)
| EvFree (p : PVOID)
| EvBasicLoggerMt (name path : string)
| EvSetLevel (lv : Level)
| EvFlushOn (lv : Level)
| EvSetDefaultLogger
| EvLog (logger : string) (lv : Level) (msg : string)
| EvFlush
| EvThrow (what : string)
| EvRealExitProcess (uExitCode : UINT).

#[global] Instance Event_eq_dec : EqDecision Event.
Proof. solve_decision. Defined.

(** ** Process state *)

Record Process := {
  g_EngineHostInstances : gmap Z Z;          (* HMODULE -> PINDICIUM_ENGINE *)
  Engines : gmap Z INDICIUM_ENGINE;          (* engine structures on the heap *)
  Blocks : gmap Z Block;                     (* payload blocks on the heap *)
  Trace : list Event
}.

Definition initial : Process :=
  {| g_EngineHostInstances := ∅; Engines := ∅; Blocks := ∅; Trace := [] |}.

Definition emit (evs : list Event) (st : Process) : Process :=
  {| g_EngineHostInstances := g_EngineHostInstances st;
     Engines := Engines st; Blocks := Blocks st;
     Trace := Trace st ++ evs |}.

Definition set_registry (r : gmap Z Z) (st : Process) : Process :=
  {| g_EngineHostInstances := r;
     Engines := Engines st; Blocks := Blocks st; Trace := Trace st |}.

Definition store_engine (p : PINDICIUM_ENGINE) (e : INDICIUM_ENGINE)
    (st : Process) : Process :=
  {| g_EngineHostInstances := g_EngineHostInstances st;
     Engines := <[p := e]> (Engines st);
     Blocks := Blocks st; Trace := Trace st |}.

Definition set_blocks (b : gmap Z Block) (st : Process) : Process :=
  {| g_EngineHostInstances := g_EngineHostInstances st;
     Engines := Engines st; Blocks := b; Trace := Trace st |}.

(** ** C library: [malloc], [free], [memcpy] *)

(** [malloc(size)] returning [ret]; a null [ret] is the failed allocation.
    The address is chosen by the allocator, so it is an argument. *)
Definition malloc (ret : PVOID) (size : N) (st : Process) : Process :=
  emit [EvMalloc size ret]
    (if nonnull ret
     then set_blocks (<[ret := Live (replicate (N.to_nat size) None)]> (Blocks st)) st
     else st).

(** [free(p)].  Releasing a block that is not live has no defined
    behaviour in C; the call is recorded all the same and the block stays
    released. *)
Definition free (p : PVOID) (st : Process) : Process :=
  emit [EvFree p] (set_blocks (<[p := Freed]> (Blocks st)) st).

(** [memcpy(dst, src, n)]: [src] is the content of the caller's buffer.
    Reading past the buffer or writing past the block is undefined. *)
Definition memcpy (dst : PVOID) (src : list Byte.byte) (n : N) (st : Process)
    : option Process :=
  match Blocks st !! dst with
  | Some (Live cells) =>
      if decide ((N.to_nat n <= length src)%nat ∧ (N.to_nat n <= length cells)%nat)
      then Some (set_blocks
                   (<[dst := Live ((Some <$> take (N.to_nat n) src)
                                   ++ drop (N.to_nat n) cells)]> (Blocks st)) st)
      else None
  | _ => None
  end.

(** ** Custom context (Engine.cpp, lines 265-306) *)

Definition IndiciumEngineFreeCustomContext (Engine : PINDICIUM_ENGINE)
    (st : Process) : option (INDICIUM_ERROR * Process) :=
  if negb (nonnull Engine) then Some (INDICIUM_ERROR_INVALID_ENGINE_HANDLE, st)
  else
    e ← Engines st !! Engine;
    Some (INDICIUM_ERROR_NONE,
          if nonnull (CustomContext e) then free (CustomContext e) st else st).

Definition IndiciumEngineAllocCustomContext (malloc_ret : PVOID)
    (Engine : PINDICIUM_ENGINE) (Context : list Byte.byte) (ContextSize : N)
    (st : Process) : option (INDICIUM_ERROR * Process) :=
  if negb (nonnull Engine) then Some (INDICIUM_ERROR_INVALID_ENGINE_HANDLE, st)
  else
    e ← Engines st !! Engine;
    (* if (!Engine->CustomContext) IndiciumEngineFreeCustomContext(Engine); *)
    st1 ← (if negb (nonnull (CustomContext e))
           then snd <$> IndiciumEngineFreeCustomContext Engine st
           else Some st);
    (* Engine->CustomContext = malloc(ContextSize); *)
    e1 ← Engines st1 !! Engine;
    let st2 := store_engine Engine (set_CustomContext malloc_ret e1)
                 (malloc malloc_ret ContextSize st1) in
    if negb (nonnull malloc_ret)
    then Some (INDICIUM_ERROR_CONTEXT_ALLOCATION_FAILED, st2)
    else
      st3 ← memcpy malloc_ret Context ContextSize st2;
      Some (INDICIUM_ERROR_NONE, st3).

Definition IndiciumEngineGetCustomContext (Engine : PINDICIUM_ENGINE)
    (st : Process) : option PVOID :=
  if negb (nonnull Engine) then Some nullptr
  else CustomContext <$> Engines st !! Engine.

(** ** Dispatch (Engine.h, lines 107-135; Engine.cpp, lines 308-350) *)

(** [slot ? slot(args) : (void)0] *)
Definition invoke_slot (cb : FNPTR) (args : list Z) (st : Process) : Process :=
  if nonnull cb then emit [EvCallback cb args] st else st.

Definition INVOKE_INDICIUM_GAME_HOOKED (engine : PINDICIUM_ENGINE)
    (version : INDICIUM_D3D_VERSION) (st : Process) : option Process :=
  e ← Engines st !! engine;
  let cb := EvtIndiciumGameHooked (EngineConfig e) in
  Some (if nonnull cb then emit [EvGameHooked cb engine version] st else st).

Definition INVOKE_D3D9_CALLBACK (engine : PINDICIUM_ENGINE) (callback : string)
    (args : list Z) (st : Process) : option Process :=
  e ← Engines st !! engine;
  Some (invoke_slot (slot (EventsD3D9 e) callback) args st).

Definition INVOKE_D3D10_CALLBACK (engine : PINDICIUM_ENGINE) (callback : string)
    (args : list Z) (st : Process) : option Process :=
  e ← Engines st !! engine;
  Some (invoke_slot (slot (EventsD3D10 e) callback) args st).

Definition INVOKE_D3D11_CALLBACK (engine : PINDICIUM_ENGINE) (callback : string)
    (args : list Z) (st : Process) : option Process :=
  e ← Engines st !! engine;
  Some (invoke_slot (slot (EventsD3D11 e) callback) args st).

Definition INVOKE_D3D12_CALLBACK (engine : PINDICIUM_ENGINE) (callback : string)
    (args : list Z) (st : Process) : option Process :=
  e ← Engines st !! engine;
  Some (invoke_slot (slot (EventsD3D12 e) callback) args st).

Definition INVOKE_ARC_CALLBACK (engine : PINDICIUM_ENGINE) (callback : string)
    (args : list Z) (st : Process) : option Process :=
  e ← Engines st !! engine;
  Some (invoke_slot (slot (EventsARC e) callback) args st).

(** The macro that belongs to a backend variant. *)
Definition INVOKE_CALLBACK (b : Backend) :
    PINDICIUM_ENGINE -> string -> list Z -> Process -> option Process :=
  match b with
  | D3D9 => INVOKE_D3D9_CALLBACK
  | D3D10 => INVOKE_D3D10_CALLBACK
  | D3D11 => INVOKE_D3D11_CALLBACK
  | D3D12 => INVOKE_D3D12_CALLBACK
  | ARC => INVOKE_ARC_CALLBACK
  end.

(** [if (Engine) Engine->EventsXxx = *Callbacks;] for the four Direct3D
    variants; the sources define no setter for the audio table. *)
Definition set_callbacks (b : Backend) (Engine : PINDICIUM_ENGINE)
    (Callbacks : gmap string Z) (st : Process) : option Process :=
  if negb (nonnull Engine) then Some st
  else
    e ← Engines st !! Engine;
    Some (store_engine Engine (set_Events b Callbacks e) st).

Definition IndiciumEngineSetD3D9EventCallbacks := set_callbacks D3D9.
Definition IndiciumEngineSetD3D10EventCallbacks := set_callbacks D3D10.
Definition IndiciumEngineSetD3D11EventCallbacks := set_callbacks D3D11.
Definition IndiciumEngineSetD3D12EventCallbacks := set_callbacks D3D12.

(** ** The logger registry *)

(** [spdlog::get("indicium")] yields the logger once [basic_logger_mt] has
    registered it under that name, and a null pointer before. *)
Definition is_logger_registration (ev : Event) : bool :=
  match ev with
  | EvBasicLoggerMt name _ => String.eqb name "indicium"
  | _ => false
  end.

Definition logger_registered (st : Process) : bool :=
  existsb is_logger_registration (Trace st).

(** ** Termination guard (Engine.cpp, lines 80-136) *)

(** Status values of [WaitForSingleObject] (winbase.h). *)
Definition WAIT_OBJECT_0 : DWORD := 0.
Definition WAIT_ABANDONED : DWORD := 128.          (* 0x00000080 *)
Definition WAIT_TIMEOUT : DWORD := 258.            (* 0x00000102 *)
Definition WAIT_FAILED : DWORD := 4294967295.      (* 0xFFFFFFFF *)

(** What the operating system answers during the guard. *)
Record ExitEnv := {
  SetEvent_ret : HANDLE -> bool;
  WaitForSingleObject_ret : HANDLE -> DWORD
}.

(** The [switch (result)] of the loop body.  [DEBUG] is the [_DEBUG]
    macro of the build. *)
Definition wait_switch (DEBUG : bool) (thread : HANDLE) (result : DWORD)
    : list Event :=
  if result =? WAIT_ABANDONED then
    [EvLog "process" lvl_error "Unknown state, host process might crash"]
  else if result =? WAIT_OBJECT_0 then
    [EvLog "process" lvl_info "Thread shutdown complete"]
  else if result =? WAIT_TIMEOUT then
    if DEBUG then []
    else [EvTerminateThread thread 0;
          EvLog "process" lvl_error
            "Thread hasn't finished clean-up within expected time, terminating"]
  else if result =? WAIT_FAILED then
    [EvLog "process" lvl_error "Unknown error, host process might crash"]
  else
    [EvTerminateThread thread 0;
     EvLog "process" lvl_error "Unexpected return value, terminating"].

Definition pre_exit (p : PINDICIUM_ENGINE) (engine : INDICIUM_ENGINE)
    : list Event :=
  let cb := EvtIndiciumGamePreExit (EngineConfig engine) in
  if nonnull cb then [EvGamePreExit cb p] else [].

Definition signal_cancel (os : ExitEnv) (engine : INDICIUM_ENGINE)
    : list Event :=
  EvSetEvent (EngineCancellationEvent engine)
  :: (if SetEvent_ret os (EngineCancellationEvent engine) then []
      else [EvLog "process" lvl_error "SetEvent failed: {}"]).

(** One turn of the loop over the registry. *)
Definition guard_step (DEBUG : bool) (os : ExitEnv) (p : PINDICIUM_ENGINE)
    (engine : INDICIUM_ENGINE) : list Event :=
  pre_exit p engine
  ++ signal_cancel os engine
  ++ EvWaitForSingleObject (EngineThread engine) 3000
  :: wait_switch DEBUG (EngineThread engine)
       (WaitForSingleObject_ret os (EngineThread engine)).

(** A [std::map] is walked in the order of its keys. *)
Definition key_le (a b : Z * Z) : Prop := a.1 ≤ b.1.

#[global] Instance key_le_dec a b : Decision (key_le a b).
Proof. unfold key_le. apply _. Defined.

Definition registry_entries (st : Process) : list (Z * Z) :=
  merge_sort key_le (map_to_list (g_EngineHostInstances st)).

Fixpoint guard_loop (DEBUG : bool) (os : ExitEnv) (kvs : list (Z * Z))
    (st : Process) : option Process :=
  match kvs with
  | [] => Some st
  | (_, p) :: rest =>
      engine ← Engines st !! p;
      guard_loop DEBUG os rest (emit (guard_step DEBUG os p engine) st)
  end.

(** [FakeExitProcess]: the state it yields is the state in which the
    original [ExitProcess] has been entered.  Its first statement,
    [spdlog::get("indicium")->clone("process")], dereferences the logger:
    without a registered logger that is a null pointer. *)
Definition FakeExitProcess (DEBUG : bool) (os : ExitEnv) (uExitCode : UINT)
    (st : Process) : option Process :=
  if logger_registered st then
    let st0 := emit [EvLog "process" lvl_info
      "Host process is terminating, performing pre-DLL-detach clean-up tasks"] st in
    st1 ← guard_loop DEBUG os (registry_entries st0) st0;
    Some (emit [EvRealExitProcess uExitCode] st1)
  else None.

(** ** Creation and destruction (Engine.cpp, lines 139-263) *)

(** What the operating system answers during [IndiciumEngineCreate]. *)
Record CreateEnv := {
  GetModuleHandleEx_ret : bool;
  malloc_engine_ret : PINDICIUM_ENGINE;
  CreateEvent_ret : HANDLE;
  CreateThread_ret : HANDLE
}.

(** Logger set-up of [IndiciumEngineCreate]. *)
Definition logging_setup (DEBUG : bool) (cfg : INDICIUM_ENGINE_CONFIG)
    : list Event :=
  EvBasicLoggerMt "indicium" (LogFilePath cfg)
  :: (if DEBUG then [EvSetLevel lvl_debug; EvFlushOn lvl_debug]
      else [EvFlushOn lvl_info])
  ++ (if EnableLogging cfg then [EvSetDefaultLogger] else []).

(** How a call of [IndiciumEngineCreate] ends: it returns an error code, or
    [spdlog::basic_logger_mt] throws out of it.  The logger library is not
    part of the sources; its registry refuses a second logger of a name
    that is registered, by throwing [spdlog_ex]. *)
Inductive Outcome :=
| Returns (code : INDICIUM_ERROR)
| Throws_spdlog_ex.

#[global] Instance Outcome_eq_dec : EqDecision Outcome.
Proof. solve_decision. Defined.

(** The engine as it stands when the logger is about to be set up: zeroed,
    with the host module, the copy of the configuration and the
    cancellation event. *)
Definition engine_before_thread (os : CreateEnv) (HostInstance : HMODULE)
    (EngineConfig : INDICIUM_ENGINE_CONFIG) : INDICIUM_ENGINE :=
  set_EngineCancellationEvent (CreateEvent_ret os)
    (set_EngineConfig EngineConfig
       (set_HostInstance HostInstance zero_engine)).

(** [Engine] is the out-pointer, null when the caller passes none.  The
    result is how the call ends, the value stored through [Engine] (if
    any) and the new state. *)
Definition IndiciumEngineCreate (DEBUG : bool) (os : CreateEnv)
    (HostInstance : HMODULE) (EngineConfig : INDICIUM_ENGINE_CONFIG)
    (Engine : PVOID) (st : Process)
    : Outcome * option PINDICIUM_ENGINE * Process :=
  match g_EngineHostInstances st !! HostInstance with
  | Some _ => (Returns INDICIUM_ERROR_ENGINE_ALREADY_ALLOCATED, None, st)
  | None =>
    let st0 :=
      emit [EvDetourAttach;
            EvGetModuleHandleEx HostInstance (GetModuleHandleEx_ret os)] st in
    if negb (GetModuleHandleEx_ret os)
    then (Returns INDICIUM_ERROR_REFERENCE_INCREMENT_FAILED, None, st0)
    else
      let p := malloc_engine_ret os in
      let st1 := emit [EvMallocEngine p] st0 in
      if negb (nonnull p)
      then (Returns INDICIUM_ERROR_ENGINE_ALLOCATION_FAILED, None, st1)
      else
        let engine := engine_before_thread os HostInstance EngineConfig in
        let st2 :=
          store_engine p engine (emit [EvCreateEvent (CreateEvent_ret os)] st1) in
        if logger_registered st2
        then (Throws_spdlog_ex, None,
              emit [EvThrow "basic_logger_mt: logger with name 'indicium' already exists"]
                st2)
        else
          let st3 :=
            store_engine p (set_EngineThread (CreateThread_ret os) engine)
              (emit (logging_setup DEBUG EngineConfig
                     ++ [EvLog "api" lvl_info
                           "Indicium engine initialized, attempting to launch main thread";
                         EvCreateThread p (CreateThread_ret os)]) st2) in
          if negb (nonnull (CreateThread_ret os))
          then (Returns INDICIUM_ERROR_CREATE_THREAD_FAILED, None,
                emit [EvLog "api" lvl_error
                        "Could not create main thread, library unusable"] st3)
          else
            (Returns INDICIUM_ERROR_NONE,
             (if nonnull Engine then Some p else None),
             set_registry (<[HostInstance := p]> (g_EngineHostInstances st3))
               (emit [EvLog "api" lvl_info "Main thread created successfully"] st3))
  end.

Definition IndiciumEngineDestroy (HostInstance : HMODULE) (st : Process)
    : option (INDICIUM_ERROR * Process) :=
  match g_EngineHostInstances st !! HostInstance with
  | None => Some (INDICIUM_ERROR_INVALID_HMODULE_HANDLE, st)
  | Some p =>
      engine ← Engines st !! p;
      Some (INDICIUM_ERROR_NONE,
            set_registry (delete HostInstance (g_EngineHostInstances st))
              (emit [EvDetourDetach;
                     EvLog "api" lvl_info "Freeing remaining resources";
                     EvCloseHandle (EngineCancellationEvent engine);
                     EvCloseHandle (EngineThread engine);
                     EvLog "api" lvl_info "Engine shutdown complete";
                     EvFlush] st))
  end.

(** ** The interception primitive *)

(** How often the guard was attached and detached so far. *)
Definition attach_count (tr : list Event) : nat :=
  length (filter (λ ev, ev = EvDetourAttach) tr).

Definition detach_count (tr : list Event) : nat :=
  length (filter (λ ev, ev = EvDetourDetach) tr).

(** Modelled from the spec: the Interception Primitive, which is an
    outside library.  The spec describes it as redirecting one global
    function pointer to a replacement and later restoring it: an attach
    leaves the process-exit entry point redirected, a detach leaves it
    restored. *)
Definition detour_step (armed : bool) (ev : Event) : bool :=
  match ev with
  | EvDetourAttach => true
  | EvDetourDetach => false
  | _ => armed
  end.

Definition ExitProcess_detoured (st : Process) : bool :=
  foldl detour_step false (Trace st).

(** Events of the guard that are neither a callback, nor a signal, nor a
    wait, nor the exit itself: log lines and forced thread termination. *)
Definition housekeeping (ev : Event) : bool :=
  match ev with
  | EvLog _ _ _ | EvTerminateThread _ _ => true
  | _ => false
  end.

(** The registry addresses engine structures only. *)
Definition registry_valid (st : Process) : Prop :=
  ∀ h p, g_EngineHostInstances st !! h = Some p → is_Some (Engines st !! p).

(** ** Statements of the specification, as they are written *)


(** "Only the first create arms the guard; later creates do not attach the
    interception again": a create in a process that has attached the guard
    before makes no attach call. *)
Definition create_attaches_once (DEBUG : bool) (os : CreateEnv)
    (HostInstance : HMODULE) (cfg : INDICIUM_ENGINE_CONFIG) (Engine : PVOID)
    (st : Process) : Prop :=
  (0 < attach_count (Trace st))%nat →
  attach_count (Trace (IndiciumEngineCreate DEBUG os HostInstance cfg Engine st).2)
  = attach_count (Trace st).

(** "When the wait call fails or returns an unrecognized status, the
    worker thread is forcibly terminated and an error is logged." *)
Definition unrecognized (result : DWORD) : Prop :=
  result ≠ WAIT_ABANDONED ∧ result ≠ WAIT_OBJECT_0
  ∧ result ≠ WAIT_TIMEOUT ∧ result ≠ WAIT_FAILED.

Definition is_error_log (ev : Event) : bool :=
  match ev with
  | EvLog _ lvl_error _ => true
  | _ => false
  end.

Definition failed_wait_terminates (DEBUG : bool) (thread : HANDLE)
    (result : DWORD) : Prop :=
  result = WAIT_FAILED ∨ unrecognized result →
  EvTerminateThread thread 0 ∈ wait_switch DEBUG thread result
  ∧ existsb is_error_log (wait_switch DEBUG thread result) = true.

(** "Alloc frees the previously stored custom context first whenever one
    already exists": the block that the engine's field addressed before
    the call is released by the call. *)
Definition alloc_frees_previous (malloc_ret : PVOID) (Engine : PINDICIUM_ENGINE)
    (Context : list Byte.byte) (ContextSize : N) (st : Process) : Prop :=
  ∀ e r st',
    Engines st !! Engine = Some e →
    CustomContext e ≠ nullptr →
    IndiciumEngineAllocCustomContext malloc_ret Engine Context ContextSize st
      = Some (r, st') →
    EvFree (CustomContext e) ∈ drop (length (Trace st)) (Trace st').

(** ** Sample runs *)

Definition sample_os (p : Z) : CreateEnv :=
  {| GetModuleHandleEx_ret := true; malloc_engine_ret := p;
     CreateEvent_ret := p + 1; CreateThread_ret := p + 2 |}.

Definition sample_config : INDICIUM_ENGINE_CONFIG :=
  {| EvtIndiciumGameHooked := 0; EvtIndiciumGamePreExit := 77;
     LogFilePath := "indicium.log"; EnableLogging := true |}.

(** The first create of a process, for module [4096], with the out-pointer
    [500]; then the process after a further create, for module [8192]. *)
Definition one_engine : Process :=
  (IndiciumEngineCreate false (sample_os 1000) 4096 sample_config 500 initial).2.

Definition second_create : Process :=
  (IndiciumEngineCreate false (sample_os 2000) 8192 sample_config 500 one_engine).2.

(** The engine at [1000] holding the two-byte payload [01 02] at [5000]. *)
Definition with_context : Process :=
  default one_engine
    (snd <$> IndiciumEngineAllocCustomContext 5000 1000 [x01; x02] 2 one_engine).

Definition sample_table : gmap string Z :=
  {[ "EvtIndiciumD3D9Present" := 313 ]}.

Definition with_callbacks : Process :=
  default one_engine
    (IndiciumEngineSetD3D9EventCallbacks 1000 sample_table one_engine).

Definition sample_engine : INDICIUM_ENGINE :=
  set_EngineThread 1002
    (set_EngineCancellationEvent 1001
       (set_EngineConfig sample_config (set_HostInstance 4096 zero_engine))).

Definition wait_fails : ExitEnv :=
  {| SetEvent_ret := λ _, true; WaitForSingleObject_ret := λ _, WAIT_FAILED |}.

Definition wait_odd : ExitEnv :=
  {| SetEvent_ret := λ _, true; WaitForSingleObject_ret := λ _, 7 |}.

(** ** Logging facade (Engine.cpp, lines 352-394) *)

(** [vsnprintf(buf, size, Format, args)]: [expanded] is the text that the
    format and its arguments expand to; at most [size - 1] characters of it
    are stored in [buf], followed by the terminating zero. *)
Definition vsnprintf (size : nat) (expanded : string) : string :=
  String.substring 0 (size - 1) expanded.

(** [char buf[1000]] *)
Definition buf_size : nat := 1000.

(** The body shared by the four entry points: the logger is looked up and
    dereferenced, the text is formatted into [buf] and handed on. *)
Definition host_log (lv : Level) (expanded : string) (st : Process)
    : option Process :=
  if logger_registered st
  then Some (emit [EvLog "host" lv (vsnprintf buf_size expanded)] st)
  else None.

Definition IndiciumEngineLogDebug := host_log lvl_debug.
Definition IndiciumEngineLogInfo := host_log lvl_info.
Definition IndiciumEngineLogWarning := host_log lvl_warn.
Definition IndiciumEngineLogError := host_log lvl_error.

(** ** Sequences of calls to the interface *)

Inductive Call :=
| CallCreate (DEBUG : bool) (os : CreateEnv) (HostInstance : Z)
    (cfg : INDICIUM_ENGINE_CONFIG) (Engine : Z)
| CallDestroy (HostInstance : Z)
| CallAllocCustomContext (malloc_ret Engine : Z) (Context : list Byte.byte)
    (ContextSize : N)
| CallFreeCustomContext (Engine : Z)
| CallSetD3D9EventCallbacks (Engine : Z) (Callbacks : gmap string Z)
| CallSetD3D10EventCallbacks (Engine : Z) (Callbacks : gmap string Z)
| CallSetD3D11EventCallbacks (Engine : Z) (Callbacks : gmap string Z)
| CallSetD3D12EventCallbacks (Engine : Z) (Callbacks : gmap string Z)
| CallLogDebug (expanded : string)
| CallLogInfo (expanded : string)
| CallLogWarning (expanded : string)
| CallLogError (expanded : string).

Definition call (c : Call) (st : Process) : option Process :=
  match c with
  | CallCreate DEBUG os h cfg out =>
      Some (IndiciumEngineCreate DEBUG os h cfg out st).2
  | CallDestroy h => snd <$> IndiciumEngineDestroy h st
  | CallAllocCustomContext m E P n =>
      snd <$> IndiciumEngineAllocCustomContext m E P n st
  | CallFreeCustomContext E => snd <$> IndiciumEngineFreeCustomContext E st
  | CallSetD3D9EventCallbacks E t => IndiciumEngineSetD3D9EventCallbacks E t st
  | CallSetD3D10EventCallbacks E t => IndiciumEngineSetD3D10EventCallbacks E t st
  | CallSetD3D11EventCallbacks E t => IndiciumEngineSetD3D11EventCallbacks E t st
  | CallSetD3D12EventCallbacks E t => IndiciumEngineSetD3D12EventCallbacks E t st
  | CallLogDebug text => IndiciumEngineLogDebug text st
  | CallLogInfo text => IndiciumEngineLogInfo text st
  | CallLogWarning text => IndiciumEngineLogWarning text st
  | CallLogError text => IndiciumEngineLogError text st
  end.

Fixpoint run (cs : list Call) (st : Process) : option Process :=
  match cs with
  | [] => Some st
  | c :: rest => st1 ← call c st; run rest st1
  end.

(** ** Vocabulary for the statements *)

(** What the call added to the trace. *)
Definition events_since (st st' : Process) : list Event :=
  drop (length (Trace st)) (Trace st').

Definition is_set_event (ev : Event) : bool :=
  match ev with EvSetEvent _ => true | _ => false end.

Definition is_wait (ev : Event) : bool :=
  match ev with EvWaitForSingleObject _ _ => true | _ => false end.

(** Calls that give something back: a detach of the guard, a closed
    handle, a released block. *)
Definition is_release (ev : Event) : bool :=
  match ev with
  | EvDetourDetach | EvCloseHandle _ | EvFree _ => true
  | _ => false
  end.

(** Calls that stop the worker of an engine. *)
Definition is_stop (ev : Event) : bool :=
  match ev with
  | EvSetEvent _ | EvWaitForSingleObject _ _ | EvTerminateThread _ _ => true
  | _ => false
  end.

(** The fields of an engine that are written at creation only. *)
Definition same_identity (e e' : INDICIUM_ENGINE) : Prop :=
  HostInstance e' = HostInstance e
  ∧ EngineConfig e' = EngineConfig e
  ∧ EngineThread e' = EngineThread e
  ∧ EngineCancellationEvent e' = EngineCancellationEvent e.

(** Every engine of [st] is still there in [st'], with those fields. *)
Definition engines_kept (st st' : Process) : Prop :=
  ∀ q e, Engines st !! q = Some e →
    ∃ e', Engines st' !! q = Some e' ∧ same_identity e e'.

(** The balance of the calls to the interception library: the guard was
    attached at least once for every detach and every registered engine. *)
Definition attach_balance (st : Process) : Prop :=
  (detach_count (Trace st) + size (g_EngineHostInstances st)
   <= attach_count (Trace st))%nat.


(** The engine that a successful create stores. *)
Definition fresh_engine (os : CreateEnv) (h : Z) (cfg : INDICIUM_ENGINE_CONFIG)
    : INDICIUM_ENGINE :=
  {| HostInstance := h; GameVersion := 0; EngineConfig := cfg;
     EventsD3D9 := ∅; EventsD3D10 := ∅; EventsD3D11 := ∅;
     EventsD3D12 := ∅; EventsARC := ∅;
     EngineThread := CreateThread_ret os;
     EngineCancellationEvent := CreateEvent_ret os;
     CustomContext := nullptr |}.

(** Further sample runs. *)
Definition thread_fails : CreateEnv :=
  {| GetModuleHandleEx_ret := true; malloc_engine_ret := 3000;
     CreateEvent_ret := 3001; CreateThread_ret := 0 |}.

Definition one_destroyed : Process :=
  default one_engine (snd <$> IndiciumEngineDestroy 4096 one_engine).



Definition sample_calls : list Call :=
  [CallCreate false (sample_os 1000) 4096 sample_config 500;
   CallLogInfo "hooked";
   CallAllocCustomContext 5000 1000 [x01; x02] 2;
   CallSetD3D9EventCallbacks 1000 sample_table;
   CallFreeCustomContext 1000;
   CallDestroy 4096].

Definition sample_final : Process :=
  default initial (run sample_calls initial).

(** * Properties *)

(** ** Basic facts *)

Lemma nonnull_true (p : Z) : nonnull p = true ↔ p ≠ 0.
Proof. unfold nonnull. destruct (Z.eqb_spec p 0); simpl; split; congruence. Qed.

Lemma nonnull_false (p : Z) : nonnull p = false ↔ p = 0.
Proof. unfold nonnull. destruct (Z.eqb_spec p 0); simpl; split; congruence. Qed.

Lemma nonnull_of_ne (p : Z) : p ≠ 0 → nonnull p = true.
Proof. apply nonnull_true. Qed.

Lemma Trace_emit evs st : Trace (emit evs st) = Trace st ++ evs.
Proof. reflexivity. Qed.

Lemma emit_emit evs1 evs2 st : emit evs2 (emit evs1 st) = emit (evs1 ++ evs2) st.
Proof. unfold emit; simpl. by rewrite <- app_assoc. Qed.

Lemma emit_nil st : emit [] st = st.
Proof. destruct st; unfold emit; simpl. by rewrite app_nil_r. Qed.

(** ** Custom context *)

Section custom_context.
Variables (Engine : Z) (st : Process) (e : INDICIUM_ENGINE).
Hypothesis Engine_nonnull : Engine ≠ 0.
Hypothesis Engine_valid : Engines st !! Engine = Some e.

(** The guard in front of the call to [IndiciumEngineFreeCustomContext]
    lets the call through only when the pointer is null, and the callee
    releases only a pointer that is not null: nothing is released. *)
Lemma alloc_guarded_free :
  (if negb (nonnull (CustomContext e))
   then snd <$> IndiciumEngineFreeCustomContext Engine st
   else Some st) = Some st.
Proof using Engine_nonnull Engine_valid.
  destruct (nonnull (CustomContext e)) eqn:Hc; simpl; [done|].
  unfold IndiciumEngineFreeCustomContext.
  rewrite (nonnull_of_ne _ Engine_nonnull), Engine_valid. simpl.
  by rewrite Hc.
Qed.

Lemma alloc_unfold (m : Z) (P : list Byte.byte) (n : N) :
  IndiciumEngineAllocCustomContext m Engine P n st =
  let st2 := store_engine Engine (set_CustomContext m e) (malloc m n st) in
  if negb (nonnull m)
  then Some (INDICIUM_ERROR_CONTEXT_ALLOCATION_FAILED, st2)
  else st3 ← memcpy m P n st2; Some (INDICIUM_ERROR_NONE, st3).
Proof using Engine_nonnull Engine_valid.
  unfold IndiciumEngineAllocCustomContext.
  rewrite (nonnull_of_ne _ Engine_nonnull), Engine_valid. simpl.
  rewrite alloc_guarded_free. simpl. by rewrite Engine_valid.
Qed.

Lemma memcpy_fresh (m : Z) (P : list Byte.byte) (n : N) :
  m ≠ 0 →
  memcpy m P n (store_engine Engine (set_CustomContext m e) (malloc m n st)) =
  if decide (N.to_nat n <= length P)%nat
  then Some (set_blocks
               (<[m := Live (Some <$> take (N.to_nat n) P)]> (Blocks st))
               (store_engine Engine (set_CustomContext m e) (malloc m n st)))
  else None.
Proof.
  intros Hm. unfold memcpy, malloc. rewrite (nonnull_of_ne _ Hm). simpl.
  rewrite lookup_insert_eq, length_replicate.
  destruct (decide (N.to_nat n <= length P)%nat) as [Hle|Hgt].
  - rewrite decide_True by (split; [done | lia]).
    rewrite drop_replicate, Nat.sub_diag. simpl.
    by rewrite app_nil_r, insert_insert_eq.
  - rewrite decide_False; [done | tauto].
Qed.

Lemma alloc_trace (m : Z) (P : list Byte.byte) (n : N) r st' :
  IndiciumEngineAllocCustomContext m Engine P n st = Some (r, st') →
  Trace st' = Trace st ++ [EvMalloc n m].
Proof using Engine_nonnull Engine_valid.
  rewrite alloc_unfold. simpl.
  destruct (nonnull m) eqn:Hm; simpl.
  - apply nonnull_true in Hm. rewrite (memcpy_fresh _ _ _ Hm).
    case_decide; simpl; [|done]. intros [= <- <-]. unfold malloc; simpl.
    by destruct (nonnull m).
  - intros [= <- <-]. unfold malloc; simpl. by rewrite Hm.
Qed.
End custom_context.

(** C7.  For a valid, non-null engine, [IndiciumEngineAllocCustomContext]
    succeeds whenever the allocator returns a block and the payload buffer
    holds at least [n] bytes; and whenever it succeeds,
    [IndiciumEngineGetCustomContext] returns the new block, whose content
    is exactly the first [n] bytes of the payload, all [n] of them. *)
Theorem C7_alloc_then_get (m Engine : Z) (P : list Byte.byte) (n : N)
    (st : Process) (e : INDICIUM_ENGINE) :
  Engine ≠ 0 →
  Engines st !! Engine = Some e →
  (m ≠ 0 → (N.to_nat n <= length P)%nat →
   ∃ st', IndiciumEngineAllocCustomContext m Engine P n st
          = Some (INDICIUM_ERROR_NONE, st'))
  ∧ (∀ st', IndiciumEngineAllocCustomContext m Engine P n st
            = Some (INDICIUM_ERROR_NONE, st') →
       ∃ ctx, IndiciumEngineGetCustomContext Engine st' = Some ctx
              ∧ ctx ≠ nullptr
              ∧ Blocks st' !! ctx = Some (Live (Some <$> take (N.to_nat n) P))
              ∧ length (take (N.to_nat n) P) = N.to_nat n).
Proof.
  intros HE Hv. rewrite (alloc_unfold _ _ _ HE Hv). simpl. split.
  - intros Hm Hlen. rewrite (nonnull_of_ne _ Hm). simpl.
    rewrite (memcpy_fresh _ _ _ _ _ _ Hm), decide_True by done. simpl. eauto.
  - intros st'. destruct (nonnull m) eqn:Hm; simpl; [|done].
    apply nonnull_true in Hm. rewrite (memcpy_fresh _ _ _ _ _ _ Hm).
    case_decide as Hlen; simpl; [|done]. intros [= <-].
    exists m. unfold IndiciumEngineGetCustomContext.
    rewrite (nonnull_of_ne _ HE). simpl.
    rewrite lookup_insert_eq. simpl. rewrite lookup_insert_eq.
    repeat split; [done|]. rewrite length_take. lia.
Qed.

(** C10.  When the allocation inside [IndiciumEngineAllocCustomContext]
    fails, the call returns [INDICIUM_ERROR_CONTEXT_ALLOCATION_FAILED], the
    engine's [CustomContext] field has been overwritten with null, so
    [IndiciumEngineGetCustomContext] returns null, and no block was
    released: the heap is as before and the only call made is the failed
    [malloc].  The block the field addressed before is still allocated and
    no longer reachable through the engine. *)
Theorem C10_alloc_failure_not_atomic (Engine : Z) (P : list Byte.byte) (n : N)
    (st : Process) (e : INDICIUM_ENGINE) :
  Engine ≠ 0 →
  Engines st !! Engine = Some e →
  ∃ st',
    IndiciumEngineAllocCustomContext nullptr Engine P n st
      = Some (INDICIUM_ERROR_CONTEXT_ALLOCATION_FAILED, st')
    ∧ Engines st' !! Engine = Some (set_CustomContext nullptr e)
    ∧ IndiciumEngineGetCustomContext Engine st' = Some nullptr
    ∧ Blocks st' = Blocks st
    ∧ Trace st' = Trace st ++ [EvMalloc n nullptr].
Proof.
  intros HE Hv. rewrite (alloc_unfold _ _ _ HE Hv). simpl.
  eexists; split; [reflexivity|].
  unfold IndiciumEngineGetCustomContext. rewrite (nonnull_of_ne _ HE). simpl.
  by rewrite lookup_insert_eq.
Qed.

(** C9.  On a valid, non-null engine whose [CustomContext] is not null,
    [IndiciumEngineFreeCustomContext] releases the block and leaves every
    engine structure as it was, the [CustomContext] field included:
    [IndiciumEngineGetCustomContext] still returns the pointer of the
    released block, and a second call hands the same pointer to [free]
    again, so that two calls do not leave the state one call leaves. *)
Theorem C9_free_keeps_pointer (Engine : Z) (st : Process) (e : INDICIUM_ENGINE) :
  Engine ≠ 0 →
  Engines st !! Engine = Some e →
  CustomContext e ≠ nullptr →
  ∃ st1 st2,
    IndiciumEngineFreeCustomContext Engine st = Some (INDICIUM_ERROR_NONE, st1)
    ∧ Engines st1 = Engines st
    ∧ Blocks st1 !! CustomContext e = Some Freed
    ∧ Trace st1 = Trace st ++ [EvFree (CustomContext e)]
    ∧ IndiciumEngineGetCustomContext Engine st1 = Some (CustomContext e)
    ∧ IndiciumEngineFreeCustomContext Engine st1 = Some (INDICIUM_ERROR_NONE, st2)
    ∧ Trace st2 = Trace st ++ [EvFree (CustomContext e); EvFree (CustomContext e)]
    ∧ st2 ≠ st1.
Proof.
  intros HE Hv Hc.
  exists (free (CustomContext e) st), (free (CustomContext e) (free (CustomContext e) st)).
  unfold IndiciumEngineFreeCustomContext, IndiciumEngineGetCustomContext.
  rewrite (nonnull_of_ne _ HE). simpl. rewrite Hv. simpl.
  rewrite (nonnull_of_ne _ Hc).
  repeat split.
  - apply lookup_insert_eq.
  - by rewrite <- app_assoc.
  - intros Heq. apply (f_equal (λ s, length (Trace s))) in Heq.
    simpl in Heq. rewrite !length_app in Heq. simpl in Heq. lia.
Qed.

(** C4 (the code misses it).  At an engine that holds the payload block
    [5000], a second [IndiciumEngineAllocCustomContext] makes one call,
    the [malloc] of the new block: the old block is not released, it
    stays live with its content while the engine's field moves on to the
    new block. *)
Theorem C4_alloc_leaks_previous :
  ∃ st',
    IndiciumEngineGetCustomContext 1000 with_context = Some 5000
    ∧ Blocks with_context !! 5000 = Some (Live [Some x01; Some x02])
    ∧ IndiciumEngineAllocCustomContext 6000 1000 [x03] 1 with_context
      = Some (INDICIUM_ERROR_NONE, st')
    ∧ drop (length (Trace with_context)) (Trace st') = [EvMalloc 1 6000]
    ∧ Blocks st' !! 5000 = Some (Live [Some x01; Some x02])
    ∧ IndiciumEngineGetCustomContext 1000 st' = Some 6000
    ∧ ¬ alloc_frees_previous 6000 1000 [x03] 1 with_context.
Proof.
  eexists. split; [reflexivity|]. split; [reflexivity|].
  split; [vm_compute; reflexivity|].
  split; [reflexivity|]. split; [reflexivity|]. split; [reflexivity|].
  intros H.
  specialize (H _ _ _ eq_refl ltac:(vm_compute; discriminate) eq_refl).
  vm_compute in H. apply list_elem_of_In in H. simpl in H.
  destruct H as [H|[]]. discriminate H.
Qed.

(** ** Dispatch *)

(** C8.  For every backend variant, invoking an event of a valid engine
    whose slot is null leaves the process as it is: no call is made and
    nothing is reported.  When the slot is not null, exactly one call is
    made, to the function the slot holds, with the arguments given. *)
Theorem C8_invoke_contract (b : Backend) (engine : Z) (e : INDICIUM_ENGINE)
    (callback : string) (args : list Z) (st : Process) :
  Engines st !! engine = Some e →
  (slot (Events b e) callback = nullptr →
   INVOKE_CALLBACK b engine callback args st = Some st)
  ∧ (slot (Events b e) callback ≠ nullptr →
     INVOKE_CALLBACK b engine callback args st
     = Some (emit [EvCallback (slot (Events b e) callback) args] st)).
Proof.
  intros Hv. split; intros Hs.
  - destruct b; simpl in *;
      unfold INVOKE_D3D9_CALLBACK, INVOKE_D3D10_CALLBACK, INVOKE_D3D11_CALLBACK,
        INVOKE_D3D12_CALLBACK, INVOKE_ARC_CALLBACK, invoke_slot;
      rewrite Hv; simpl; rewrite Hs; reflexivity.
  - apply nonnull_true in Hs.
    destruct b; simpl in *;
      unfold INVOKE_D3D9_CALLBACK, INVOKE_D3D10_CALLBACK, INVOKE_D3D11_CALLBACK,
        INVOKE_D3D12_CALLBACK, INVOKE_ARC_CALLBACK, invoke_slot;
      rewrite Hv; simpl; rewrite Hs; reflexivity.
Qed.

(** ** Registry *)

(** C2.  A create for a host module that is already registered returns
    [INDICIUM_ERROR_ENGINE_ALREADY_ALLOCATED], stores nothing through the
    out-parameter and leaves the whole process as it is: registry, engine
    structures, heap and trace, hence no call to the interception
    library either. *)
Theorem C2_create_registered (DEBUG : bool) (os : CreateEnv) (h : Z)
    (cfg : INDICIUM_ENGINE_CONFIG) (Engine : Z) (st : Process) :
  is_Some (g_EngineHostInstances st !! h) →
  IndiciumEngineCreate DEBUG os h cfg Engine st
  = (Returns INDICIUM_ERROR_ENGINE_ALREADY_ALLOCATED, None, st).
Proof. intros [p Hp]. unfold IndiciumEngineCreate. by rewrite Hp. Qed.

(** ** Counting the calls to the interception library *)

Lemma attach_count_app tr1 tr2 :
  attach_count (tr1 ++ tr2) = (attach_count tr1 + attach_count tr2)%nat.
Proof. unfold attach_count. by rewrite filter_app, length_app. Qed.

Lemma detach_count_app tr1 tr2 :
  detach_count (tr1 ++ tr2) = (detach_count tr1 + detach_count tr2)%nat.
Proof. unfold detach_count. by rewrite filter_app, length_app. Qed.

Lemma attach_count_none tr :
  Forall (λ ev, ev ≠ EvDetourAttach) tr → attach_count tr = 0%nat.
Proof.
  unfold attach_count. induction 1 as [|ev tr Hev _ IH]; [done|].
  by rewrite filter_cons_False.
Qed.

Lemma detach_count_none tr :
  Forall (λ ev, ev ≠ EvDetourDetach) tr → detach_count tr = 0%nat.
Proof.
  unfold detach_count. induction 1 as [|ev tr Hev _ IH]; [done|].
  by rewrite filter_cons_False.
Qed.

Lemma detoured_app tr1 tr2 b :
  foldl detour_step b (tr1 ++ tr2) = foldl detour_step (foldl detour_step b tr1) tr2.
Proof. apply foldl_app. Qed.

Lemma detoured_quiet tr b :
  Forall (λ ev, ev ≠ EvDetourAttach ∧ ev ≠ EvDetourDetach) tr →
  foldl detour_step b tr = b.
Proof.
  intros H. revert b. induction H as [|ev tr [H1 H2] _ IH]; intros b; [done|].
  simpl. rewrite IH. by destruct ev.
Qed.

(** C5, as the code has it.  Every create for a host module that is not
    registered calls the interception library once to attach the guard,
    as its first step: whether or not the guard was attached before, and
    whatever the outcome of the create.  A create for a registered
    module is rejected before that step and makes no call at all. *)
Theorem C5_create_attaches_each_time (DEBUG : bool) (os : CreateEnv) (h : Z)
    (cfg : INDICIUM_ENGINE_CONFIG) (Engine : Z) (st : Process) :
  g_EngineHostInstances st !! h = None →
  ∃ rest,
    Trace (IndiciumEngineCreate DEBUG os h cfg Engine st).2
      = Trace st ++ EvDetourAttach :: rest
    ∧ attach_count (Trace (IndiciumEngineCreate DEBUG os h cfg Engine st).2)
      = S (attach_count (Trace st))
    ∧ ExitProcess_detoured (IndiciumEngineCreate DEBUG os h cfg Engine st).2 = true.
Proof.
  intros Hh. unfold IndiciumEngineCreate. rewrite Hh.
  assert (Hgen : ∀ rest st',
             Trace st' = Trace st ++ EvDetourAttach :: rest →
             Forall (λ ev, ev ≠ EvDetourAttach ∧ ev ≠ EvDetourDetach) rest →
             ∃ rest0, Trace st' = Trace st ++ EvDetourAttach :: rest0
                      ∧ attach_count (Trace st') = S (attach_count (Trace st))
                      ∧ ExitProcess_detoured st' = true).
  { intros rest st' Htr Hq. exists rest. split; [done|].
    unfold ExitProcess_detoured. rewrite Htr. split.
    - rewrite attach_count_app.
      change (EvDetourAttach :: rest) with ([EvDetourAttach] ++ rest).
      rewrite attach_count_app, (attach_count_none rest).
      + change (attach_count [EvDetourAttach]) with 1%nat. lia.
      + eapply Forall_impl; [exact Hq|]. by intros ? [? _].
    - rewrite detoured_app. simpl. by apply detoured_quiet. }
  destruct (GetModuleHandleEx_ret os); cbn [negb].
  2:{ eapply Hgen; [reflexivity|]. repeat constructor; discriminate. }
  destruct (nonnull (malloc_engine_ret os)); cbn [negb].
  2:{ eapply Hgen; [simpl; rewrite <- app_assoc; reflexivity|].
      repeat constructor; discriminate. }
  destruct (logger_registered _).
  { eapply Hgen; [simpl; rewrite <- !app_assoc; simpl; reflexivity|].
    repeat constructor; discriminate. }
  destruct (nonnull (CreateThread_ret os)); cbn [negb];
    (eapply Hgen; [simpl; rewrite <- !app_assoc; simpl; reflexivity|]);
    destruct DEBUG, (EnableLogging cfg); simpl; repeat constructor; discriminate.
Qed.

Lemma C5_create_attaches_each_time_witness :
  g_EngineHostInstances one_engine !! 8192 = None
  ∧ ∃ rest,
      Trace second_create = Trace one_engine ++ EvDetourAttach :: rest
      ∧ attach_count (Trace second_create) = S (attach_count (Trace one_engine))
      ∧ ExitProcess_detoured second_create = true.
Proof.
  split; [reflexivity|].
  apply (C5_create_attaches_each_time false (sample_os 2000) 8192
           sample_config 500 one_engine).
  reflexivity.
Defined.

(** C5 as written fails: the process that created the engine of module
    [4096] has attached the guard once; the create for module [8192]
    attaches it a second time. *)
Lemma C5_counterexample :
  attach_count (Trace one_engine) = 1%nat
  ∧ attach_count (Trace second_create) = 2%nat
  ∧ ¬ create_attaches_once false (sample_os 2000) 8192 sample_config 500 one_engine.
Proof.
  split; [reflexivity|]. split; [reflexivity|].
  intros H. specialize (H ltac:(vm_compute; lia)). vm_compute in H. discriminate H.
Qed.

(** ** Termination guard *)

Lemma wait_switch_failed DEBUG thread :
  wait_switch DEBUG thread WAIT_FAILED
  = [EvLog "process" lvl_error "Unknown error, host process might crash"].
Proof. reflexivity. Qed.

Lemma wait_switch_default DEBUG thread result :
  unrecognized result →
  wait_switch DEBUG thread result
  = [EvTerminateThread thread 0;
     EvLog "process" lvl_error "Unexpected return value, terminating"].
Proof.
  intros (H1 & H2 & H3 & H4). unfold wait_switch.
  by rewrite !(proj2 (Z.eqb_neq _ _)).
Qed.

Lemma wait_switch_housekeeping DEBUG thread result :
  forallb housekeeping (wait_switch DEBUG thread result) = true.
Proof. unfold wait_switch. repeat case_match; reflexivity. Qed.

(** C6, as the code has it.  In the wait step of an instance: when the
    wait returns a status that is none of the four the code names, the
    worker thread is terminated and an error is logged; when the wait
    itself fails ([WAIT_FAILED]), an error is logged and the thread is
    not terminated, neither there nor anywhere else in the step. *)
Theorem C6_wait_step_failures (DEBUG : bool) (os : ExitEnv) (p : Z)
    (e : INDICIUM_ENGINE) :
  (WaitForSingleObject_ret os (EngineThread e) = WAIT_FAILED →
   wait_switch DEBUG (EngineThread e) (WaitForSingleObject_ret os (EngineThread e))
   = [EvLog "process" lvl_error "Unknown error, host process might crash"]
   ∧ ∀ h c, EvTerminateThread h c ∉ guard_step DEBUG os p e)
  ∧ (unrecognized (WaitForSingleObject_ret os (EngineThread e)) →
     wait_switch DEBUG (EngineThread e) (WaitForSingleObject_ret os (EngineThread e))
     = [EvTerminateThread (EngineThread e) 0;
        EvLog "process" lvl_error "Unexpected return value, terminating"]).
Proof.
  split.
  - intros Hr. unfold guard_step. rewrite Hr, wait_switch_failed.
    split; [done|]. intros h c Hin.
    unfold pre_exit, signal_cancel in Hin.
    rewrite !elem_of_app in Hin.
    destruct Hin as [Hin|[Hin|Hin]].
    + destruct (nonnull _); [|by apply not_elem_of_nil in Hin].
      apply list_elem_of_singleton in Hin. discriminate Hin.
    + destruct (SetEvent_ret _ _);
        repeat (apply elem_of_cons in Hin as [Hin|Hin]; [discriminate Hin|]);
        by apply not_elem_of_nil in Hin.
    + repeat (apply elem_of_cons in Hin as [Hin|Hin]; [discriminate Hin|]).
      by apply not_elem_of_nil in Hin.
  - apply wait_switch_default.
Qed.

Lemma C6_wait_step_failures_witness :
  (WaitForSingleObject_ret wait_fails (EngineThread sample_engine) = WAIT_FAILED
   ∧ wait_switch false 1002 WAIT_FAILED
     = [EvLog "process" lvl_error "Unknown error, host process might crash"])
  ∧ (unrecognized (WaitForSingleObject_ret wait_odd (EngineThread sample_engine))
     ∧ wait_switch false 1002 7
       = [EvTerminateThread 1002 0;
          EvLog "process" lvl_error "Unexpected return value, terminating"]).
Proof.
  split.
  - split; [reflexivity|].
    exact (proj1 (proj1 (C6_wait_step_failures false wait_fails 1000 sample_engine)
                    eq_refl)).
  - assert (Hu : unrecognized (WaitForSingleObject_ret wait_odd (EngineThread sample_engine))).
    { unfold unrecognized. simpl. repeat split; discriminate. }
    split; [exact Hu|].
    exact (proj2 (C6_wait_step_failures false wait_odd 1000 sample_engine) Hu).
Defined.

(** C6 as written fails: when the wait on the thread [1002] fails, the
    guard logs the error and does not terminate the thread; the run of
    the guard over the process with the one engine shows no
    [TerminateThread] before the exit. *)
Lemma C6_counterexample :
  ¬ failed_wait_terminates false 1002 WAIT_FAILED
  ∧ (drop (length (Trace one_engine)) ∘ Trace
       <$> FakeExitProcess false wait_fails 3 one_engine)
    = Some [EvLog "process" lvl_info
              "Host process is terminating, performing pre-DLL-detach clean-up tasks";
            EvGamePreExit 77 1000;
            EvSetEvent 1001;
            EvWaitForSingleObject 1002 3000;
            EvLog "process" lvl_error "Unknown error, host process might crash";
            EvRealExitProcess 3].
Proof.
  split; [|vm_compute; reflexivity].
  intros H. destruct (H (or_introl eq_refl)) as [Hin _].
  rewrite wait_switch_failed in Hin.
  apply list_elem_of_singleton in Hin. discriminate Hin.
Qed.

(** The registry addresses engine structures in every process that the
    two lifecycle operations build from the empty one. *)
Lemma registry_valid_initial : registry_valid initial.
Proof. intros h p Hh. simpl in Hh. by rewrite lookup_empty in Hh. Qed.

Lemma registry_valid_create DEBUG os h cfg out st :
  registry_valid st →
  registry_valid (IndiciumEngineCreate DEBUG os h cfg out st).2.
Proof.
  intros Hv. unfold IndiciumEngineCreate.
  destruct (g_EngineHostInstances st !! h) eqn:Hh; [done|].
  destruct (GetModuleHandleEx_ret os); cbn [negb]; [|exact Hv].
  destruct (nonnull (malloc_engine_ret os)); cbn [negb]; [|exact Hv].
  assert (Hkeep : ∀ (m : gmap Z INDICIUM_ENGINE) e,
            (∀ h' p', g_EngineHostInstances st !! h' = Some p' → is_Some (m !! p')) →
            ∀ h' p', g_EngineHostInstances st !! h' = Some p' →
                     is_Some (<[malloc_engine_ret os := e]> m !! p')).
  { intros m e Hm h' p' Hh'. rewrite lookup_insert. case_decide; [eauto|].
    by eapply Hm. }
  destruct (logger_registered _).
  { intros h' p'. simpl. by apply Hkeep. }
  destruct (nonnull (CreateThread_ret os)); cbn [negb].
  - intros h' p'. simpl. rewrite lookup_insert. case_decide.
    + intros [= <-]. rewrite lookup_insert_eq. eauto.
    + by apply Hkeep, Hkeep.
  - intros h' p'. simpl. by apply Hkeep, Hkeep.
Qed.


Section guard.
Variables (DEBUG : bool) (os : ExitEnv).

Lemma registry_entries_spec st h p :
  (h, p) ∈ registry_entries st ↔ g_EngineHostInstances st !! h = Some p.
Proof.
  unfold registry_entries. rewrite merge_sort_Permutation.
  apply elem_of_map_to_list.
Qed.

(** The loop emits the steps of the entries one after the other and
    touches nothing but the trace. *)
Lemma guard_loop_steps kvs st :
  (∀ kv, kv ∈ kvs → is_Some (Engines st !! kv.2)) →
  ∃ steps,
    guard_loop DEBUG os kvs st = Some (emit (concat steps) st)
    ∧ Forall2 (λ kv step, ∃ e, Engines st !! kv.2 = Some e
                               ∧ step = guard_step DEBUG os kv.2 e) kvs steps.
Proof using Type.
  revert st. induction kvs as [|[h p] kvs IH]; intros st Hv.
  - exists []. simpl. by rewrite emit_nil.
  - destruct (Hv (h, p)) as [e He]; [left|]. simpl in He.
    destruct (IH (emit (guard_step DEBUG os p e) st)) as (steps & Hl & Hs).
    { intros kv Hkv. apply Hv. by right. }
    exists (guard_step DEBUG os p e :: steps). split.
    + simpl. rewrite He. simpl. by rewrite Hl, emit_emit.
    + constructor; [eauto | exact Hs].
Qed.

Lemma guard_step_shape p e :
  ∃ l2 l3,
    guard_step DEBUG os p e
    = pre_exit p e
      ++ EvSetEvent (EngineCancellationEvent e)
      :: l2 ++ EvWaitForSingleObject (EngineThread e) 3000 :: l3
    ∧ forallb housekeeping l2 = true
    ∧ forallb housekeeping l3 = true.
Proof using Type.
  unfold guard_step, signal_cancel.
  eexists _, _. split; [reflexivity|]. split.
  - by destruct (SetEvent_ret _ _).
  - apply wait_switch_housekeeping.
Qed.

End guard.




(** ** The theorems at the sample runs *)

Lemma C7_alloc_then_get_witness :
  (1000 ≠ 0 ∧ Engines one_engine !! 1000 = Some sample_engine)
  ∧ ∃ st',
      IndiciumEngineAllocCustomContext 5000 1000 [x01; x02] 2 one_engine
        = Some (INDICIUM_ERROR_NONE, st')
      ∧ ∃ ctx, IndiciumEngineGetCustomContext 1000 st' = Some ctx
               ∧ ctx ≠ nullptr
               ∧ Blocks st' !! ctx
                 = Some (Live (Some <$> take (N.to_nat 2) [x01; x02]))
               ∧ length (take (N.to_nat 2) [x01; x02]) = N.to_nat 2.
Proof.
  split; [split; [discriminate | reflexivity]|].
  destruct (C7_alloc_then_get 5000 1000 [x01; x02] 2 one_engine sample_engine
              ltac:(discriminate) eq_refl) as [Hex Hget].
  destruct (Hex ltac:(discriminate) ltac:(simpl; lia)) as [st' Hst'].
  exists st'. split; [exact Hst' | exact (Hget st' Hst')].
Defined.

Lemma C10_alloc_failure_not_atomic_witness :
  (1000 ≠ 0
   ∧ Engines with_context !! 1000 = Some (set_CustomContext 5000 sample_engine))
  ∧ ∃ st',
      IndiciumEngineAllocCustomContext nullptr 1000 [x03] 1 with_context
        = Some (INDICIUM_ERROR_CONTEXT_ALLOCATION_FAILED, st')
      ∧ Engines st' !! 1000
        = Some (set_CustomContext nullptr (set_CustomContext 5000 sample_engine))
      ∧ IndiciumEngineGetCustomContext 1000 st' = Some nullptr
      ∧ Blocks st' = Blocks with_context
      ∧ Trace st' = Trace with_context ++ [EvMalloc 1 nullptr].
Proof.
  split; [split; [discriminate | reflexivity]|].
  exact (C10_alloc_failure_not_atomic 1000 [x03] 1 with_context
           (set_CustomContext 5000 sample_engine) ltac:(discriminate) eq_refl).
Defined.

Lemma C9_free_keeps_pointer_witness :
  (1000 ≠ 0
   ∧ Engines with_context !! 1000 = Some (set_CustomContext 5000 sample_engine)
   ∧ CustomContext (set_CustomContext 5000 sample_engine) ≠ nullptr)
  ∧ ∃ st1 st2,
      IndiciumEngineFreeCustomContext 1000 with_context
        = Some (INDICIUM_ERROR_NONE, st1)
      ∧ Engines st1 = Engines with_context
      ∧ Blocks st1 !! 5000 = Some Freed
      ∧ Trace st1 = Trace with_context ++ [EvFree 5000]
      ∧ IndiciumEngineGetCustomContext 1000 st1 = Some 5000
      ∧ IndiciumEngineFreeCustomContext 1000 st1 = Some (INDICIUM_ERROR_NONE, st2)
      ∧ Trace st2 = Trace with_context ++ [EvFree 5000; EvFree 5000]
      ∧ st2 ≠ st1.
Proof.
  split; [split; [discriminate | split; [reflexivity | discriminate]]|].
  exact (C9_free_keeps_pointer 1000 with_context
           (set_CustomContext 5000 sample_engine)
           ltac:(discriminate) eq_refl ltac:(discriminate)).
Defined.

Lemma C8_invoke_contract_witness :
  Engines with_callbacks !! 1000
    = Some (set_Events D3D9 sample_table sample_engine)
  ∧ (slot sample_table "EvtIndiciumD3D9PreReset" = nullptr
     ∧ INVOKE_CALLBACK D3D9 1000 "EvtIndiciumD3D9PreReset" [11; 12] with_callbacks
       = Some with_callbacks)
  ∧ (slot sample_table "EvtIndiciumD3D9Present" ≠ nullptr
     ∧ INVOKE_CALLBACK D3D9 1000 "EvtIndiciumD3D9Present" [11; 12] with_callbacks
       = Some (emit [EvCallback 313 [11; 12]] with_callbacks)).
Proof.
  split; [reflexivity|]. split.
  - split; [reflexivity|].
    exact (proj1 (C8_invoke_contract D3D9 1000
                    (set_Events D3D9 sample_table sample_engine)
                    "EvtIndiciumD3D9PreReset" [11; 12] with_callbacks eq_refl)
             eq_refl).
  - split; [discriminate|].
    exact (proj2 (C8_invoke_contract D3D9 1000
                    (set_Events D3D9 sample_table sample_engine)
                    "EvtIndiciumD3D9Present" [11; 12] with_callbacks eq_refl)
             ltac:(discriminate)).
Defined.

Lemma C2_create_registered_witness :
  is_Some (g_EngineHostInstances one_engine !! 4096)
  ∧ IndiciumEngineCreate false (sample_os 3000) 4096 sample_config 500 one_engine
    = (Returns INDICIUM_ERROR_ENGINE_ALREADY_ALLOCATED, None, one_engine).
Proof.
  assert (H : is_Some (g_EngineHostInstances one_engine !! 4096))
    by (exists 1000; reflexivity).
  split; [exact H|].
  exact (C2_create_registered false (sample_os 3000) 4096 sample_config 500
           one_engine H).
Defined.

(** * Further properties of the code *)

Lemma events_since_app st st' evs :
  Trace st' = Trace st ++ evs → events_since st st' = evs.
Proof. unfold events_since. intros ->. apply drop_app_length. Qed.

(** ** Creation *)

Lemma logger_before_setup (p : Z) (e : INDICIUM_ENGINE) (a b c d : Event) st :
  is_logger_registration a = false → is_logger_registration b = false →
  is_logger_registration c = false → is_logger_registration d = false →
  logger_registered (store_engine p e (emit [d] (emit [c] (emit [a; b] st))))
  = logger_registered st.
Proof.
  intros Ha Hb Hc Hd. unfold logger_registered. cbn.
  rewrite !existsb_app. cbn. rewrite Ha, Hb, Hc, Hd.
  by rewrite !orb_false_r.
Qed.

Lemma create_unregistered DEBUG os h cfg out st :
  g_EngineHostInstances st !! h = None →
  IndiciumEngineCreate DEBUG os h cfg out st =
  let st0 := emit [EvDetourAttach;
                   EvGetModuleHandleEx h (GetModuleHandleEx_ret os)] st in
  if negb (GetModuleHandleEx_ret os)
  then (Returns INDICIUM_ERROR_REFERENCE_INCREMENT_FAILED, None, st0)
  else
    let p := malloc_engine_ret os in
    let st1 := emit [EvMallocEngine p] st0 in
    if negb (nonnull p)
    then (Returns INDICIUM_ERROR_ENGINE_ALLOCATION_FAILED, None, st1)
    else
      let st2 :=
        store_engine p (engine_before_thread os h cfg)
          (emit [EvCreateEvent (CreateEvent_ret os)] st1) in
      if logger_registered st
      then (Throws_spdlog_ex, None,
            emit [EvThrow "basic_logger_mt: logger with name 'indicium' already exists"]
              st2)
      else
        let st3 :=
          store_engine p (fresh_engine os h cfg)
            (emit (logging_setup DEBUG cfg
                   ++ [EvLog "api" lvl_info
                         "Indicium engine initialized, attempting to launch main thread";
                       EvCreateThread p (CreateThread_ret os)]) st2) in
        if negb (nonnull (CreateThread_ret os))
        then (Returns INDICIUM_ERROR_CREATE_THREAD_FAILED, None,
              emit [EvLog "api" lvl_error
                      "Could not create main thread, library unusable"] st3)
        else (Returns INDICIUM_ERROR_NONE,
              (if nonnull out then Some p else None),
              set_registry (<[h := p]> (g_EngineHostInstances st3))
                (emit [EvLog "api" lvl_info "Main thread created successfully"] st3)).
Proof.
  intros Hh. unfold IndiciumEngineCreate. rewrite Hh. cbv zeta.
  by rewrite logger_before_setup.
Qed.

(** The outcome of a create, by cases on what it meets. *)
Lemma create_cases DEBUG os h cfg out st :
  (is_Some (g_EngineHostInstances st !! h)
   ∧ IndiciumEngineCreate DEBUG os h cfg out st
     = (Returns INDICIUM_ERROR_ENGINE_ALREADY_ALLOCATED, None, st))
  ∨ (g_EngineHostInstances st !! h = None
     ∧ ∃ st',
         g_EngineHostInstances st' = g_EngineHostInstances st
         ∧ Blocks st' = Blocks st
         ∧ ((GetModuleHandleEx_ret os = false
             ∧ IndiciumEngineCreate DEBUG os h cfg out st
               = (Returns INDICIUM_ERROR_REFERENCE_INCREMENT_FAILED, None, st'))
            ∨ (GetModuleHandleEx_ret os = true ∧ malloc_engine_ret os = nullptr
               ∧ IndiciumEngineCreate DEBUG os h cfg out st
                 = (Returns INDICIUM_ERROR_ENGINE_ALLOCATION_FAILED, None, st'))
            ∨ (GetModuleHandleEx_ret os = true ∧ malloc_engine_ret os ≠ nullptr
               ∧ logger_registered st = true
               ∧ IndiciumEngineCreate DEBUG os h cfg out st
                 = (Throws_spdlog_ex, None, st'))
            ∨ (GetModuleHandleEx_ret os = true ∧ malloc_engine_ret os ≠ nullptr
               ∧ logger_registered st = false ∧ CreateThread_ret os = nullptr
               ∧ IndiciumEngineCreate DEBUG os h cfg out st
                 = (Returns INDICIUM_ERROR_CREATE_THREAD_FAILED, None, st'))))
  ∨ (g_EngineHostInstances st !! h = None
     ∧ GetModuleHandleEx_ret os = true ∧ malloc_engine_ret os ≠ nullptr
     ∧ logger_registered st = false ∧ CreateThread_ret os ≠ nullptr
     ∧ ∃ st',
         IndiciumEngineCreate DEBUG os h cfg out st
         = (Returns INDICIUM_ERROR_NONE,
            (if nonnull out then Some (malloc_engine_ret os) else None), st')
         ∧ g_EngineHostInstances st'
           = <[h := malloc_engine_ret os]> (g_EngineHostInstances st)
         ∧ Blocks st' = Blocks st).
Proof.
  destruct (g_EngineHostInstances st !! h) as [q|] eqn:Hh.
  { left. split; [eauto|]. unfold IndiciumEngineCreate. by rewrite Hh. }
  right. rewrite (create_unregistered _ _ _ _ _ _ Hh). cbv zeta.
  destruct (GetModuleHandleEx_ret os); cbn [negb].
  2:{ left. split; [done|]. eexists. split; [|split]; [| |left; by split]; done. }
  destruct (nonnull (malloc_engine_ret os)) eqn:Hp; cbn [negb].
  2:{ apply nonnull_false in Hp. left. split; [done|]. eexists.
      split; [|split]; [| |right; left; by repeat split]; done. }
  apply nonnull_true in Hp.
  destruct (logger_registered st) eqn:Hl.
  { left. split; [done|]. eexists.
    split; [|split]; [| |right; right; left; by repeat split]; done. }
  destruct (nonnull (CreateThread_ret os)) eqn:Ht; cbn [negb].
  - apply nonnull_true in Ht. right. repeat split; try done.
    eexists. split; [reflexivity|]. by split.
  - apply nonnull_false in Ht. left. split; [done|]. eexists.
    split; [|split]; [| |right; right; right; by repeat split]; done.
Qed.

(** X1.  The first create that gets as far as the logger: for an
    unregistered module, in a process where the logger does not exist yet,
    with the module pinned, the engine allocated and the thread started,
    the create returns [INDICIUM_ERROR_NONE], stores the engine's address
    through the out-pointer when that is not null, registers the address
    under the module and nothing else, and stores a zeroed engine that
    holds the module, a copy of the configuration and the two handles: its
    callback tables are empty and its custom context is null, so
    [IndiciumEngineGetCustomContext] on the new handle returns null. *)
Theorem create_success (DEBUG : bool) (os : CreateEnv) (h : Z)
    (cfg : INDICIUM_ENGINE_CONFIG) (Engine : Z) (st : Process) :
  g_EngineHostInstances st !! h = None →
  GetModuleHandleEx_ret os = true →
  malloc_engine_ret os ≠ nullptr →
  logger_registered st = false →
  CreateThread_ret os ≠ nullptr →
  ∃ st',
    IndiciumEngineCreate DEBUG os h cfg Engine st
      = (Returns INDICIUM_ERROR_NONE,
         (if decide (Engine = nullptr) then None else Some (malloc_engine_ret os)),
         st')
    ∧ g_EngineHostInstances st' = <[h := malloc_engine_ret os]> (g_EngineHostInstances st)
    ∧ Engines st' = <[malloc_engine_ret os := fresh_engine os h cfg]> (Engines st)
    ∧ Blocks st' = Blocks st
    ∧ IndiciumEngineGetCustomContext (malloc_engine_ret os) st' = Some nullptr
    ∧ (∀ b callback, slot (Events b (fresh_engine os h cfg)) callback = nullptr).
Proof.
  intros Hh Hm Hp Hl Ht. rewrite (create_unregistered _ _ _ _ _ _ Hh). cbv zeta.
  rewrite Hm, (nonnull_of_ne _ Hp), Hl, (nonnull_of_ne _ Ht). cbn [negb].
  eexists. split.
  { f_equal. f_equal. case_decide as HE.
    - by rewrite (proj2 (nonnull_false _) HE).
    - by rewrite (nonnull_of_ne _ HE). }
  split; [reflexivity|]. split; [cbn; apply insert_insert_eq|].
  split; [reflexivity|]. split.
  - unfold IndiciumEngineGetCustomContext. rewrite (nonnull_of_ne _ Hp).
    cbn. by rewrite lookup_insert_eq.
  - intros b callback. by destruct b.
Qed.

Lemma create_success_witness :
  (g_EngineHostInstances initial !! 4096 = None
   ∧ GetModuleHandleEx_ret (sample_os 1000) = true
   ∧ malloc_engine_ret (sample_os 1000) ≠ nullptr
   ∧ logger_registered initial = false
   ∧ CreateThread_ret (sample_os 1000) ≠ nullptr)
  ∧ ∃ st',
      IndiciumEngineCreate false (sample_os 1000) 4096 sample_config 500 initial
        = (Returns INDICIUM_ERROR_NONE, Some 1000, st')
      ∧ g_EngineHostInstances st' !! 4096 = Some 1000.
Proof.
  split; [repeat split; discriminate|].
  destruct (create_success false (sample_os 1000) 4096 sample_config 500 initial
              eq_refl eq_refl ltac:(discriminate) eq_refl ltac:(discriminate))
    as (st' & Hc & Hr & _).
  exists st'. split; [exact Hc|]. rewrite Hr. apply lookup_insert_eq.
Defined.

(** X2.  How a create ends is decided by the first check that fails, in
    the order: module already registered, module not pinned, engine not
    allocated, logger name already taken (the exception), thread not
    started; it returns [INDICIUM_ERROR_NONE] exactly when none fails.
    The engine's address is stored through the out-pointer exactly when
    the create returns [INDICIUM_ERROR_NONE] and the pointer is not
    null; otherwise nothing is stored. *)
Theorem create_result_cases (DEBUG : bool) (os : CreateEnv) (h : Z)
    (cfg : INDICIUM_ENGINE_CONFIG) (Engine : Z) (st : Process) :
  let r := (IndiciumEngineCreate DEBUG os h cfg Engine st).1.1 in
  let out := (IndiciumEngineCreate DEBUG os h cfg Engine st).1.2 in
  (r = Returns INDICIUM_ERROR_ENGINE_ALREADY_ALLOCATED
   ↔ is_Some (g_EngineHostInstances st !! h))
  ∧ (r = Returns INDICIUM_ERROR_REFERENCE_INCREMENT_FAILED
     ↔ g_EngineHostInstances st !! h = None ∧ GetModuleHandleEx_ret os = false)
  ∧ (r = Returns INDICIUM_ERROR_ENGINE_ALLOCATION_FAILED
     ↔ g_EngineHostInstances st !! h = None ∧ GetModuleHandleEx_ret os = true
       ∧ malloc_engine_ret os = nullptr)
  ∧ (r = Throws_spdlog_ex
     ↔ g_EngineHostInstances st !! h = None ∧ GetModuleHandleEx_ret os = true
       ∧ malloc_engine_ret os ≠ nullptr ∧ logger_registered st = true)
  ∧ (r = Returns INDICIUM_ERROR_CREATE_THREAD_FAILED
     ↔ g_EngineHostInstances st !! h = None ∧ GetModuleHandleEx_ret os = true
       ∧ malloc_engine_ret os ≠ nullptr ∧ logger_registered st = false
       ∧ CreateThread_ret os = nullptr)
  ∧ (r = Returns INDICIUM_ERROR_NONE
     ↔ g_EngineHostInstances st !! h = None ∧ GetModuleHandleEx_ret os = true
       ∧ malloc_engine_ret os ≠ nullptr ∧ logger_registered st = false
       ∧ CreateThread_ret os ≠ nullptr)
  ∧ (out = Some (malloc_engine_ret os)
     ↔ r = Returns INDICIUM_ERROR_NONE ∧ Engine ≠ nullptr)
  ∧ (out = None ↔ r ≠ Returns INDICIUM_ERROR_NONE ∨ Engine = nullptr).
Proof.
  cbv zeta.
  destruct (create_cases DEBUG os h cfg Engine st)
    as [[Hs ->]
       |[(Hh & st' & _ & _ &
          [[Hm ->]|[(Hm & Hp & ->)|[(Hm & Hp & Hl & ->)|(Hm & Hp & Hl & Ht & ->)]]])
       |(Hh & Hm & Hp & Hl & Ht & st' & -> & _)]];
    cbn [fst snd].
  1: destruct Hs as [q Hq].
  all: repeat split; intros;
    repeat match goal with
           | H : _ ∧ _ |- _ => destruct H
           | H : is_Some _ |- _ => destruct H
           end;
    try discriminate; try congruence; eauto.
  all: try (left; discriminate).
  all: destruct (nonnull Engine) eqn:HE;
    [apply nonnull_true in HE | apply nonnull_false in HE];
    try discriminate; try congruence; try tauto.
  all: try (match goal with H : _ ∨ _ |- _ => destruct H end;
            congruence).
Qed.

(** X3.  A create that does not return [INDICIUM_ERROR_NONE], be it an
    error code or the exception of the logger library, registers nothing:
    the registry and the payload heap are as before. *)
Theorem create_failure_keeps_registry (DEBUG : bool) (os : CreateEnv) (h : Z)
    (cfg : INDICIUM_ENGINE_CONFIG) (Engine : Z) (st : Process) :
  (IndiciumEngineCreate DEBUG os h cfg Engine st).1.1
    ≠ Returns INDICIUM_ERROR_NONE →
  g_EngineHostInstances (IndiciumEngineCreate DEBUG os h cfg Engine st).2
    = g_EngineHostInstances st
  ∧ Blocks (IndiciumEngineCreate DEBUG os h cfg Engine st).2 = Blocks st.
Proof.
  destruct (create_cases DEBUG os h cfg Engine st)
    as [[Hs ->]
       |[(Hh & st' & Hg & Hb &
          [[Hm ->]|[(Hm & Hp & ->)|[(Hm & Hp & Hl & ->)|(Hm & Hp & Hl & Ht & ->)]]])
       |(Hh & Hm & Hp & Hl & Ht & st' & -> & _)]];
    cbn [fst snd]; try done.
Qed.

Lemma create_failure_keeps_registry_witness :
  (IndiciumEngineCreate false thread_fails 12288 sample_config 500 initial).1.1
    ≠ Returns INDICIUM_ERROR_NONE
  ∧ g_EngineHostInstances
      (IndiciumEngineCreate false thread_fails 12288 sample_config 500 initial).2
    = g_EngineHostInstances initial
  ∧ Blocks (IndiciumEngineCreate false thread_fails 12288 sample_config 500 initial).2
    = Blocks initial.
Proof.
  assert (H : (IndiciumEngineCreate false thread_fails 12288 sample_config 500
                 initial).1.1 ≠ Returns INDICIUM_ERROR_NONE)
    by (vm_compute; discriminate).
  split; [exact H|].
  exact (create_failure_keeps_registry false thread_fails 12288 sample_config 500
           initial H).
Defined.

(** X4.  When the thread cannot be started (in a process where the logger
    did not exist before the call) the create undoes nothing of what it
    did: the engine structure stays allocated, filled in and unreachable
    through the registry; the cancellation event that was created is not
    closed; the guard that was attached is not detached. *)
Theorem create_thread_failure_leaks (DEBUG : bool) (os : CreateEnv) (h : Z)
    (cfg : INDICIUM_ENGINE_CONFIG) (Engine : Z) (st : Process) :
  g_EngineHostInstances st !! h = None →
  GetModuleHandleEx_ret os = true →
  malloc_engine_ret os ≠ nullptr →
  logger_registered st = false →
  CreateThread_ret os = nullptr →
  ∃ st',
    IndiciumEngineCreate DEBUG os h cfg Engine st
      = (Returns INDICIUM_ERROR_CREATE_THREAD_FAILED, None, st')
    ∧ g_EngineHostInstances st' = g_EngineHostInstances st
    ∧ Engines st' = <[malloc_engine_ret os := fresh_engine os h cfg]> (Engines st)
    ∧ EvDetourAttach ∈ events_since st st'
    ∧ EvCreateEvent (CreateEvent_ret os) ∈ events_since st st'
    ∧ forallb (λ ev, negb (is_release ev)) (events_since st st') = true.
Proof.
  intros Hh Hm Hp Hl Ht. rewrite (create_unregistered _ _ _ _ _ _ Hh). cbv zeta.
  rewrite Hm, (nonnull_of_ne _ Hp), Hl, Ht. cbn [negb nonnull Z.eqb nullptr].
  eexists. split; [reflexivity|]. split; [reflexivity|].
  split; [cbn; apply insert_insert_eq|].
  erewrite events_since_app by (cbn; rewrite <- !app_assoc; reflexivity).
  split; [left|]. split.
  - cbn. do 3 right. left.
  - unfold logging_setup. by destruct DEBUG, (EnableLogging cfg).
Qed.

Lemma create_thread_failure_leaks_witness :
  (g_EngineHostInstances initial !! 12288 = None
   ∧ GetModuleHandleEx_ret thread_fails = true
   ∧ malloc_engine_ret thread_fails ≠ nullptr
   ∧ logger_registered initial = false
   ∧ CreateThread_ret thread_fails = nullptr)
  ∧ ∃ st',
      IndiciumEngineCreate false thread_fails 12288 sample_config 500 initial
        = (Returns INDICIUM_ERROR_CREATE_THREAD_FAILED, None, st')
      ∧ g_EngineHostInstances st' = g_EngineHostInstances initial
      ∧ Engines st'
        = <[malloc_engine_ret thread_fails
            := fresh_engine thread_fails 12288 sample_config]> (Engines initial)
      ∧ EvDetourAttach ∈ events_since initial st'
      ∧ EvCreateEvent (CreateEvent_ret thread_fails) ∈ events_since initial st'
      ∧ forallb (λ ev, negb (is_release ev)) (events_since initial st') = true.
Proof.
  split; [repeat split; discriminate|].
  exact (create_thread_failure_leaks false thread_fails 12288 sample_config 500
           initial eq_refl eq_refl ltac:(discriminate) eq_refl eq_refl).
Defined.

(** ** Destruction *)

Lemma destroy_registered h p e st :
  g_EngineHostInstances st !! h = Some p →
  Engines st !! p = Some e →
  IndiciumEngineDestroy h st
  = Some (INDICIUM_ERROR_NONE,
          set_registry (delete h (g_EngineHostInstances st))
            (emit [EvDetourDetach;
                   EvLog "api" lvl_info "Freeing remaining resources";
                   EvCloseHandle (EngineCancellationEvent e);
                   EvCloseHandle (EngineThread e);
                   EvLog "api" lvl_info "Engine shutdown complete";
                   EvFlush] st)).
Proof. intros Hh Hp. unfold IndiciumEngineDestroy. rewrite Hh. cbn. by rewrite Hp. Qed.

Lemma destroy_unregistered h st :
  g_EngineHostInstances st !! h = None →
  IndiciumEngineDestroy h st = Some (INDICIUM_ERROR_INVALID_HMODULE_HANDLE, st).
Proof. intros Hh. unfold IndiciumEngineDestroy. by rewrite Hh. Qed.

(** X5.  After a destroy that returned, whatever it returned, the module
    is not registered: a further destroy of the same module returns
    [INDICIUM_ERROR_INVALID_HMODULE_HANDLE] and changes nothing, and so
    does every destroy of a module that was never registered. *)
Theorem destroy_then_destroy (h : Z) (st st' : Process) (r : INDICIUM_ERROR) :
  IndiciumEngineDestroy h st = Some (r, st') →
  g_EngineHostInstances st' !! h = None
  ∧ IndiciumEngineDestroy h st'
    = Some (INDICIUM_ERROR_INVALID_HMODULE_HANDLE, st')
  ∧ (r = INDICIUM_ERROR_INVALID_HMODULE_HANDLE → st' = st).
Proof.
  intros Hd.
  assert (Hgone : g_EngineHostInstances st' !! h = None
                  ∧ (r = INDICIUM_ERROR_INVALID_HMODULE_HANDLE → st' = st)).
  { unfold IndiciumEngineDestroy in Hd.
    destruct (g_EngineHostInstances st !! h) as [p|] eqn:Hh.
    - destruct (Engines st !! p); [|done]. cbn in Hd.
      injection Hd as <- <-. cbn. split; [apply lookup_delete_eq | discriminate].
    - injection Hd as <- <-. done. }
  destruct Hgone as [Hgone Hsame]. split; [done|]. split; [|done].
  by apply destroy_unregistered.
Qed.

Lemma destroy_then_destroy_witness :
  IndiciumEngineDestroy 4096 one_engine = Some (INDICIUM_ERROR_NONE, one_destroyed)
  ∧ g_EngineHostInstances one_destroyed !! 4096 = None
  ∧ IndiciumEngineDestroy 4096 one_destroyed
    = Some (INDICIUM_ERROR_INVALID_HMODULE_HANDLE, one_destroyed)
  ∧ (INDICIUM_ERROR_NONE = INDICIUM_ERROR_INVALID_HMODULE_HANDLE
     → one_destroyed = one_engine).
Proof.
  assert (H : IndiciumEngineDestroy 4096 one_engine
              = Some (INDICIUM_ERROR_NONE, one_destroyed)) by reflexivity.
  exact (conj H (destroy_then_destroy 4096 one_engine one_destroyed
                   INDICIUM_ERROR_NONE H)).
Defined.

(** X6.  A successful create followed by the destroy of the same module:
    for an unregistered module, in a process where the logger does not
    exist yet, with the module pinned, the engine allocated and the thread
    started, the create returns [INDICIUM_ERROR_NONE], the destroy returns
    [INDICIUM_ERROR_NONE] and the registry is exactly as it was before the
    create; the guard was attached once and detached once in between.
    The engine structure allocated by the create is still on the heap
    afterwards: destroy does not release it. *)
Theorem create_then_destroy (DEBUG : bool) (os : CreateEnv) (h : Z)
    (cfg : INDICIUM_ENGINE_CONFIG) (Engine : Z) (st : Process) :
  g_EngineHostInstances st !! h = None →
  GetModuleHandleEx_ret os = true →
  malloc_engine_ret os ≠ nullptr →
  logger_registered st = false →
  CreateThread_ret os ≠ nullptr →
  ∃ st1 st2,
    (IndiciumEngineCreate DEBUG os h cfg Engine st).1.1
      = Returns INDICIUM_ERROR_NONE
    ∧ (IndiciumEngineCreate DEBUG os h cfg Engine st).2 = st1
    ∧ IndiciumEngineDestroy h st1 = Some (INDICIUM_ERROR_NONE, st2)
    ∧ g_EngineHostInstances st2 = g_EngineHostInstances st
    ∧ Engines st2 !! malloc_engine_ret os = Some (fresh_engine os h cfg)
    ∧ Blocks st2 = Blocks st
    ∧ attach_count (Trace st2) = S (attach_count (Trace st))
    ∧ detach_count (Trace st2) = S (detach_count (Trace st)).
Proof.
  intros Hh Hm Hp Hl Ht. rewrite (create_unregistered _ _ _ _ _ _ Hh). cbv zeta.
  rewrite Hm, (nonnull_of_ne _ Hp), Hl, (nonnull_of_ne _ Ht). cbn [negb].
  eexists _, _. split; [reflexivity|]. split; [reflexivity|].
  erewrite destroy_registered;
    [| cbn; apply lookup_insert_eq | cbn; apply lookup_insert_eq].
  split; [reflexivity|]. cbn.
  split; [by apply delete_insert_id|].
  split; [apply lookup_insert_eq|]. split; [done|].
  unfold attach_count, detach_count. rewrite !filter_app, !length_app.
  destruct DEBUG, (EnableLogging cfg); cbn [app];
    repeat first [ rewrite filter_cons_True by reflexivity
                 | rewrite filter_cons_False by discriminate
                 | rewrite filter_nil ];
    cbn [length]; lia.
Qed.

Lemma create_then_destroy_witness :
  (g_EngineHostInstances initial !! 4096 = None
   ∧ GetModuleHandleEx_ret (sample_os 1000) = true
   ∧ malloc_engine_ret (sample_os 1000) ≠ nullptr
   ∧ logger_registered initial = false
   ∧ CreateThread_ret (sample_os 1000) ≠ nullptr)
  ∧ ∃ st1 st2,
      (IndiciumEngineCreate false (sample_os 1000) 4096 sample_config 500 initial).1.1
        = Returns INDICIUM_ERROR_NONE
      ∧ (IndiciumEngineCreate false (sample_os 1000) 4096 sample_config 500 initial).2
        = st1
      ∧ IndiciumEngineDestroy 4096 st1 = Some (INDICIUM_ERROR_NONE, st2)
      ∧ g_EngineHostInstances st2 = g_EngineHostInstances initial
      ∧ Engines st2 !! 1000 = Some (fresh_engine (sample_os 1000) 4096 sample_config)
      ∧ Blocks st2 = Blocks initial
      ∧ attach_count (Trace st2) = S (attach_count (Trace initial))
      ∧ detach_count (Trace st2) = S (detach_count (Trace initial)).
Proof.
  split; [repeat split; discriminate|].
  exact (create_then_destroy false (sample_os 1000) 4096 sample_config 500 initial
           eq_refl eq_refl ltac:(discriminate) eq_refl ltac:(discriminate)).
Defined.

(** X7.  Destroy of a registered module does not stop the worker and
    releases no memory: it makes no [SetEvent], wait or [TerminateThread]
    call and no [free] call, the engine structures and the payload heap
    are as before, so a handle kept by the caller still reads the same
    custom context.  It closes the two handles of the engine and leaves
    the other registry entries alone. *)
Theorem destroy_releases_handles_only (h p : Z) (e : INDICIUM_ENGINE)
    (st : Process) :
  g_EngineHostInstances st !! h = Some p →
  Engines st !! p = Some e →
  ∃ st',
    IndiciumEngineDestroy h st = Some (INDICIUM_ERROR_NONE, st')
    ∧ Engines st' = Engines st
    ∧ Blocks st' = Blocks st
    ∧ IndiciumEngineGetCustomContext p st' = IndiciumEngineGetCustomContext p st
    ∧ (∀ h', h' ≠ h →
         g_EngineHostInstances st' !! h' = g_EngineHostInstances st !! h')
    ∧ forallb (λ ev, negb (is_stop ev)) (events_since st st') = true
    ∧ (∀ q, EvFree q ∉ events_since st st')
    ∧ List.filter (λ ev, match ev with EvCloseHandle _ => true | _ => false end)
        (events_since st st')
      = [EvCloseHandle (EngineCancellationEvent e); EvCloseHandle (EngineThread e)].
Proof.
  intros Hh Hp. rewrite (destroy_registered _ _ _ _ Hh Hp).
  eexists. split; [reflexivity|]. split; [done|]. split; [done|].
  split; [done|]. split.
  { intros h' Hne. cbn. by apply lookup_delete_ne. }
  erewrite events_since_app by reflexivity.
  split; [done|]. split; [|done].
  intros q Hin.
  repeat (apply elem_of_cons in Hin as [Hin|Hin]; [discriminate Hin|]).
  by apply not_elem_of_nil in Hin.
Qed.

Lemma destroy_releases_handles_only_witness :
  (g_EngineHostInstances with_context !! 4096 = Some 1000
   ∧ Engines with_context !! 1000 = Some (set_CustomContext 5000 sample_engine))
  ∧ ∃ st',
      IndiciumEngineDestroy 4096 with_context = Some (INDICIUM_ERROR_NONE, st')
      ∧ Blocks st' = Blocks with_context
      ∧ IndiciumEngineGetCustomContext 1000 st' = Some 5000.
Proof.
  split; [split; reflexivity|].
  destruct (destroy_releases_handles_only 4096 1000
              (set_CustomContext 5000 sample_engine) with_context eq_refl eq_refl)
    as (st' & Hd & _ & Hb & Hg & _).
  exists st'. split; [exact Hd|]. split; [exact Hb|]. rewrite Hg. reflexivity.
Defined.

(** ** Termination guard, continued *)

(** X8.  With no engine registered, in a process in which the logger
    exists, the guard logs its opening line and calls the original
    [ExitProcess] with the exit code; it does nothing else. *)
Theorem guard_empty_registry (DEBUG : bool) (os : ExitEnv) (uExitCode : Z)
    (st : Process) :
  g_EngineHostInstances st = ∅ →
  logger_registered st = true →
  FakeExitProcess DEBUG os uExitCode st
  = Some (emit [EvLog "process" lvl_info
                  "Host process is terminating, performing pre-DLL-detach clean-up tasks";
                EvRealExitProcess uExitCode] st).
Proof.
  intros Hreg Hl. unfold FakeExitProcess, registry_entries. rewrite Hl. cbn.
  rewrite Hreg, map_to_list_empty. cbn. by rewrite emit_emit.
Qed.

Lemma guard_empty_registry_witness :
  (g_EngineHostInstances one_destroyed = ∅
   ∧ logger_registered one_destroyed = true)
  ∧ FakeExitProcess false wait_fails 3 one_destroyed
    = Some (emit [EvLog "process" lvl_info
                    "Host process is terminating, performing pre-DLL-detach clean-up tasks";
                  EvRealExitProcess 3] one_destroyed).
Proof.
  assert (H : g_EngineHostInstances one_destroyed = ∅) by reflexivity.
  assert (Hl : logger_registered one_destroyed = true) by reflexivity.
  exact (conj (conj H Hl)
           (guard_empty_registry false wait_fails 3 one_destroyed H Hl)).
Defined.

(** X10.  In the switch on the wait result the worker thread is
    terminated exactly when the wait timed out in a release build or
    returned a status the code does not name; a thread that ended, an
    abandoned wait and a failed wait never lead to [TerminateThread].
    When it is called, it is on the instance's own thread with exit
    code 0. *)
Theorem terminate_thread_cases (DEBUG : bool) (thread result : Z) :
  (EvTerminateThread thread 0 ∈ wait_switch DEBUG thread result
   ↔ (result = WAIT_TIMEOUT ∧ DEBUG = false) ∨ unrecognized result)
  ∧ (∀ h c, EvTerminateThread h c ∈ wait_switch DEBUG thread result →
            h = thread ∧ c = 0).
Proof.
  unfold wait_switch, unrecognized.
  destruct (Z.eqb_spec result WAIT_ABANDONED) as [->|Ha].
  { split; [split|].
    - intros Hin. apply list_elem_of_singleton in Hin. discriminate Hin.
    - intros [[? _]|(? & _)]; [discriminate | done].
    - intros h c Hin. apply list_elem_of_singleton in Hin. discriminate Hin. }
  destruct (Z.eqb_spec result WAIT_OBJECT_0) as [->|Ho].
  { split; [split|].
    - intros Hin. apply list_elem_of_singleton in Hin. discriminate Hin.
    - intros [[? _]|(_ & ? & _)]; [discriminate | done].
    - intros h c Hin. apply list_elem_of_singleton in Hin. discriminate Hin. }
  destruct (Z.eqb_spec result WAIT_TIMEOUT) as [->|Ht].
  { destruct DEBUG.
    - split; [split|].
      + intros Hin. by apply not_elem_of_nil in Hin.
      + intros [[_ ?]|(_ & _ & ? & _)]; [discriminate | done].
      + intros h c Hin. by apply not_elem_of_nil in Hin.
    - split; [split|].
      + intros _. by left.
      + intros _. left.
      + intros h c Hin. apply elem_of_cons in Hin as [[= -> ->]|Hin]; [done|].
        apply list_elem_of_singleton in Hin. discriminate Hin. }
  destruct (Z.eqb_spec result WAIT_FAILED) as [->|Hf].
  { split; [split|].
    - intros Hin. apply list_elem_of_singleton in Hin. discriminate Hin.
    - intros [[? _]|(_ & _ & _ & ?)]; [discriminate | done].
    - intros h c Hin. apply list_elem_of_singleton in Hin. discriminate Hin. }
  split; [split|].
  - intros _. by right.
  - intros _. left.
  - intros h c Hin. apply elem_of_cons in Hin as [[= -> ->]|Hin]; [done|].
    apply list_elem_of_singleton in Hin. discriminate Hin.
Qed.

Lemma key_le_trans (a b c : Z * Z) : key_le a b → key_le b c → key_le a c.
Proof. unfold key_le. lia. Qed.

Lemma key_le_total (a b : Z * Z) : key_le a b ∨ key_le b a.
Proof. unfold key_le. lia. Qed.

Lemma registry_entries_sorted st :
  StronglySorted key_le (registry_entries st)
  ∧ NoDup (registry_entries st).*1
  ∧ length (registry_entries st) = size (g_EngineHostInstances st).
Proof.
  unfold registry_entries. split; [|split].
  - apply (@StronglySorted_merge_sort _ key_le _ key_le_trans key_le_total).
  - rewrite merge_sort_Permutation. apply NoDup_fst_map_to_list.
  - rewrite merge_sort_Permutation. apply length_map_to_list.
Qed.

Lemma filter_housekeeping (f : Event → bool) l :
  (∀ ev, housekeeping ev = true → f ev = false) →
  forallb housekeeping l = true → List.filter f l = [].
Proof.
  intros Hf. induction l as [|ev l IH]; [done|]. cbn.
  intros [Hev Hl]%andb_prop. by rewrite (Hf _ Hev), IH.
Qed.

Lemma guard_step_signals DEBUG os p e :
  List.filter is_set_event (guard_step DEBUG os p e)
    = [EvSetEvent (EngineCancellationEvent e)]
  ∧ List.filter is_wait (guard_step DEBUG os p e)
    = [EvWaitForSingleObject (EngineThread e) 3000].
Proof.
  destruct (guard_step_shape DEBUG os p e) as (l2 & l3 & -> & H2 & H3).
  rewrite !List.filter_app. cbn. rewrite !List.filter_app. cbn.
  rewrite (filter_housekeeping is_set_event l2), (filter_housekeeping is_wait l2),
    (filter_housekeeping is_set_event l3), (filter_housekeeping is_wait l3);
    try done; try (by intros []).
  unfold pre_exit. by destruct (nonnull _).
Qed.

Lemma guard_steps_signals DEBUG os (engines : gmap Z INDICIUM_ENGINE)
    (kvs : list (Z * Z)) steps :
  Forall2 (λ kv step, ∃ e, engines !! kv.2 = Some e
                           ∧ step = guard_step DEBUG os kv.2 e) kvs steps →
  Forall2 (λ kv ev, ∃ e, engines !! kv.2 = Some e
                         ∧ ev = EvSetEvent (EngineCancellationEvent e))
    kvs (List.filter is_set_event (concat steps))
  ∧ Forall2 (λ kv ev, ∃ e, engines !! kv.2 = Some e
                           ∧ ev = EvWaitForSingleObject (EngineThread e) 3000)
      kvs (List.filter is_wait (concat steps)).
Proof.
  induction 1 as [|kv step kvs steps (e & He & ->) _ [IH1 IH2]]; [by split|].
  cbn. rewrite !List.filter_app.
  destruct (guard_step_signals DEBUG os kv.2 e) as [-> ->].
  split; constructor; eauto.
Qed.

(** X9.  In a process whose registry addresses engine structures and in
    which the logger exists, the guard handles every registered instance
    exactly once, in ascending order of the host-module handles: the
    [SetEvent] calls it makes are, in this order, one per registry entry
    on that entry's cancellation event, and likewise the waits on the
    entries' threads.  Their number is the size of the registry. *)
Theorem guard_visits_each_once (DEBUG : bool) (os : ExitEnv) (uExitCode : Z)
    (st : Process) :
  registry_valid st →
  logger_registered st = true →
  ∃ st' entries,
    FakeExitProcess DEBUG os uExitCode st = Some st'
    ∧ (∀ h p, (h, p) ∈ entries ↔ g_EngineHostInstances st !! h = Some p)
    ∧ StronglySorted key_le entries
    ∧ NoDup entries.*1
    ∧ length entries = size (g_EngineHostInstances st)
    ∧ Forall2 (λ kv ev, ∃ e, Engines st !! kv.2 = Some e
                             ∧ ev = EvSetEvent (EngineCancellationEvent e))
        entries (List.filter is_set_event (events_since st st'))
    ∧ Forall2 (λ kv ev, ∃ e, Engines st !! kv.2 = Some e
                             ∧ ev = EvWaitForSingleObject (EngineThread e) 3000)
        entries (List.filter is_wait (events_since st st')).
Proof.
  intros Hv Hlog. unfold FakeExitProcess. rewrite Hlog.
  set (st0 := emit _ st).
  destruct (guard_loop_steps DEBUG os (registry_entries st0) st0)
    as (steps & Hl & Hs).
  { intros [h p] Hkv. apply registry_entries_spec in Hkv. exact (Hv h p Hkv). }
  rewrite Hl. cbn. eexists _, (registry_entries st). split; [reflexivity|].
  split; [intros h p; apply registry_entries_spec|].
  destruct (registry_entries_sorted st) as (Hsorted & Hnodup & Hlen).
  split; [done|]. split; [done|]. split; [done|].
  erewrite events_since_app by (cbn; rewrite <- !app_assoc; reflexivity).
  cbn. rewrite !List.filter_app. cbn. rewrite !app_nil_r.
  exact (guard_steps_signals DEBUG os (Engines st) _ _ Hs).
Qed.

Lemma guard_visits_each_once_witness :
  (registry_valid one_engine ∧ logger_registered one_engine = true)
  ∧ ∃ st' entries,
      FakeExitProcess false wait_fails 3 one_engine = Some st'
      ∧ StronglySorted key_le entries
      ∧ length entries = size (g_EngineHostInstances one_engine)
      ∧ Forall2 (λ kv ev, ∃ e, Engines one_engine !! kv.2 = Some e
                               ∧ ev = EvSetEvent (EngineCancellationEvent e))
          entries (List.filter is_set_event (events_since one_engine st')).
Proof.
  assert (Hv : registry_valid one_engine)
    by apply registry_valid_create, registry_valid_initial.
  assert (Hlog : logger_registered one_engine = true) by reflexivity.
  split; [split; [exact Hv | exact Hlog]|].
  destruct (guard_visits_each_once false wait_fails 3 one_engine Hv Hlog)
    as (st' & entries & Hg & _ & Hs & _ & Hl & Hset & _).
  exists st', entries. repeat split; assumption.
Defined.

(** ** Custom context, continued *)

(** X11.  A null engine handle is refused without any effect: alloc and
    free return [INDICIUM_ERROR_INVALID_ENGINE_HANDLE], get returns null,
    the four callback setters return, and in each case the process is as
    before. *)
Theorem null_engine_handle (m : Z) (P : list Byte.byte) (n : N)
    (tbl : gmap string Z) (st : Process) :
  IndiciumEngineAllocCustomContext m nullptr P n st
    = Some (INDICIUM_ERROR_INVALID_ENGINE_HANDLE, st)
  ∧ IndiciumEngineFreeCustomContext nullptr st
    = Some (INDICIUM_ERROR_INVALID_ENGINE_HANDLE, st)
  ∧ IndiciumEngineGetCustomContext nullptr st = Some nullptr
  ∧ IndiciumEngineSetD3D9EventCallbacks nullptr tbl st = Some st
  ∧ IndiciumEngineSetD3D10EventCallbacks nullptr tbl st = Some st
  ∧ IndiciumEngineSetD3D11EventCallbacks nullptr tbl st = Some st
  ∧ IndiciumEngineSetD3D12EventCallbacks nullptr tbl st = Some st.
Proof. repeat split. Qed.

(** X12.  [IndiciumEngineFreeCustomContext] on an engine without a custom
    context returns [INDICIUM_ERROR_NONE] and does nothing; [free] is not
    called. *)
Theorem free_without_context (Engine : Z) (st : Process) (e : INDICIUM_ENGINE) :
  Engine ≠ nullptr →
  Engines st !! Engine = Some e →
  CustomContext e = nullptr →
  IndiciumEngineFreeCustomContext Engine st = Some (INDICIUM_ERROR_NONE, st).
Proof.
  intros HE Hv Hc. unfold IndiciumEngineFreeCustomContext.
  rewrite (nonnull_of_ne _ HE), Hv. cbn. by rewrite Hc.
Qed.

Lemma free_without_context_witness :
  (1000 ≠ nullptr ∧ Engines one_engine !! 1000 = Some sample_engine
   ∧ CustomContext sample_engine = nullptr)
  ∧ IndiciumEngineFreeCustomContext 1000 one_engine
    = Some (INDICIUM_ERROR_NONE, one_engine).
Proof.
  split; [split; [discriminate | split; reflexivity]|].
  exact (free_without_context 1000 one_engine sample_engine
           ltac:(discriminate) eq_refl eq_refl).
Defined.

(** X14.  What [IndiciumEngineAllocCustomContext] does to a valid engine,
    whatever it returns: its only call is the one [malloc]; it writes the
    [CustomContext] field of that engine with the result of [malloc] and
    no other field of any engine; it leaves the registry and every block
    other than the new one as they were.  It returns
    [INDICIUM_ERROR_NONE] when [malloc] returned a block and
    [INDICIUM_ERROR_CONTEXT_ALLOCATION_FAILED] when it returned null. *)
Theorem alloc_effect (m Engine : Z) (P : list Byte.byte) (n : N)
    (st st' : Process) (e : INDICIUM_ENGINE) (r : INDICIUM_ERROR) :
  Engine ≠ nullptr →
  Engines st !! Engine = Some e →
  IndiciumEngineAllocCustomContext m Engine P n st = Some (r, st') →
  events_since st st' = [EvMalloc n m]
  ∧ g_EngineHostInstances st' = g_EngineHostInstances st
  ∧ Engines st' = <[Engine := set_CustomContext m e]> (Engines st)
  ∧ (∀ q, q ≠ m → Blocks st' !! q = Blocks st !! q)
  ∧ (m ≠ nullptr → r = INDICIUM_ERROR_NONE)
  ∧ (m = nullptr → r = INDICIUM_ERROR_CONTEXT_ALLOCATION_FAILED).
Proof.
  intros HE Hv Ha.
  split; [apply events_since_app; by eapply alloc_trace|].
  rewrite (alloc_unfold _ _ _ HE Hv) in Ha. cbv zeta in Ha.
  destruct (nonnull m) eqn:Hm; cbn [negb] in Ha.
  - pose proof Hm as Hm'. apply nonnull_true in Hm.
    rewrite (memcpy_fresh _ _ _ _ _ _ Hm) in Ha.
    case_decide; [|done]. unfold malloc in Ha. rewrite Hm' in Ha.
    cbn in Ha. injection Ha as <- <-.
    repeat split; try done.
    intros q Hq. cbn. by rewrite lookup_insert_ne.
  - unfold malloc in Ha. rewrite Hm in Ha. apply nonnull_false in Hm.
    injection Ha as <- <-. repeat split; done.
Qed.

Lemma alloc_effect_witness :
  (1000 ≠ nullptr
   ∧ Engines with_context !! 1000 = Some (set_CustomContext 5000 sample_engine))
  ∧ ∃ st',
      IndiciumEngineAllocCustomContext 6000 1000 [x03] 1 with_context
        = Some (INDICIUM_ERROR_NONE, st')
      ∧ events_since with_context st' = [EvMalloc 1 6000]
      ∧ Blocks st' !! 5000 = Blocks with_context !! 5000.
Proof.
  split; [split; [discriminate | reflexivity]|].
  eexists. split; [vm_compute; reflexivity|].
  destruct (alloc_effect 6000 1000 [x03] 1 with_context _
              (set_CustomContext 5000 sample_engine) INDICIUM_ERROR_NONE
              ltac:(discriminate) eq_refl eq_refl)
    as (Hev & _ & _ & Hb & _).
  split; [exact Hev|]. apply Hb. discriminate.
Defined.

(** X13.  Replacing a context by free followed by alloc: on a valid
    engine that holds a context, [IndiciumEngineFreeCustomContext] and then
    [IndiciumEngineAllocCustomContext] both succeed, the old block is
    handed to [free] once and only once, and the engine ends up with the
    block that [malloc] returned, which holds the new payload, also when
    [malloc] hands the released address out again. *)
Theorem free_then_alloc (m Engine : Z) (P : list Byte.byte) (n : N)
    (st : Process) (e : INDICIUM_ENGINE) :
  Engine ≠ nullptr →
  Engines st !! Engine = Some e →
  CustomContext e ≠ nullptr →
  m ≠ nullptr →
  (N.to_nat n <= length P)%nat →
  ∃ st1 st2,
    IndiciumEngineFreeCustomContext Engine st = Some (INDICIUM_ERROR_NONE, st1)
    ∧ IndiciumEngineAllocCustomContext m Engine P n st1
      = Some (INDICIUM_ERROR_NONE, st2)
    ∧ events_since st st2 = [EvFree (CustomContext e); EvMalloc n m]
    ∧ Blocks st2 !! m = Some (Live (Some <$> take (N.to_nat n) P))
    ∧ IndiciumEngineGetCustomContext Engine st2 = Some m
    ∧ (m ≠ CustomContext e → Blocks st2 !! CustomContext e = Some Freed).
Proof.
  intros HE Hv Hc Hm Hlen.
  exists (free (CustomContext e) st). eexists.
  split.
  { unfold IndiciumEngineFreeCustomContext.
    rewrite (nonnull_of_ne _ HE), Hv. cbn. by rewrite (nonnull_of_ne _ Hc). }
  assert (Hv1 : Engines (free (CustomContext e) st) !! Engine = Some e) by exact Hv.
  rewrite (alloc_unfold _ _ _ HE Hv1). cbv zeta.
  rewrite (nonnull_of_ne _ Hm). cbn [negb].
  rewrite (memcpy_fresh _ _ _ _ _ _ Hm), decide_True by done. cbn [mbind option_bind].
  split; [reflexivity|]. split.
  { apply events_since_app. cbn. unfold malloc. rewrite (nonnull_of_ne _ Hm).
    cbn. by rewrite <- app_assoc. }
  split.
  { cbn. apply lookup_insert_eq. }
  split.
  { unfold IndiciumEngineGetCustomContext. rewrite (nonnull_of_ne _ HE). cbn.
    by rewrite lookup_insert_eq. }
  intros Hne. cbn. rewrite lookup_insert_ne by done. apply lookup_insert_eq.
Qed.

Lemma free_then_alloc_witness :
  (1000 ≠ nullptr
   ∧ Engines with_context !! 1000 = Some (set_CustomContext 5000 sample_engine)
   ∧ CustomContext (set_CustomContext 5000 sample_engine) ≠ nullptr
   ∧ 5000 ≠ nullptr
   ∧ (N.to_nat 1 <= length [x03])%nat)
  ∧ ∃ st1 st2,
      IndiciumEngineFreeCustomContext 1000 with_context
        = Some (INDICIUM_ERROR_NONE, st1)
      ∧ IndiciumEngineAllocCustomContext 5000 1000 [x03] 1 st1
        = Some (INDICIUM_ERROR_NONE, st2)
      ∧ events_since with_context st2 = [EvFree 5000; EvMalloc 1 5000]
      ∧ Blocks st2 !! 5000 = Some (Live (Some <$> take (N.to_nat 1) [x03]))
      ∧ IndiciumEngineGetCustomContext 1000 st2 = Some 5000
      ∧ (5000 ≠ CustomContext (set_CustomContext 5000 sample_engine)
         → Blocks st2 !! CustomContext (set_CustomContext 5000 sample_engine)
           = Some Freed).
Proof.
  split.
  { split; [discriminate|]. split; [reflexivity|]. split; [discriminate|].
    split; [discriminate | simpl; lia]. }
  exact (free_then_alloc 5000 1000 [x03] 1 with_context
           (set_CustomContext 5000 sample_engine)
           ltac:(discriminate) eq_refl ltac:(discriminate) ltac:(discriminate)
           ltac:(simpl; lia)).
Defined.

(** ** Dispatch, continued *)

Lemma same_identity_refl e : same_identity e e.
Proof. by repeat split. Qed.

Lemma engines_kept_refl st st' :
  Engines st' = Engines st → engines_kept st st'.
Proof. intros Heq q e Hq. rewrite Heq. eauto using same_identity_refl. Qed.

Lemma engines_kept_store st st0 Engine e e' :
  Engines st0 = Engines st →
  Engines st !! Engine = Some e →
  same_identity e e' →
  engines_kept st (store_engine Engine e' st0).
Proof.
  intros Heq He Hid q eq Hq. cbn. rewrite Heq, lookup_insert. case_decide.
  - subst q. assert (eq = e) as -> by congruence. eauto.
  - eauto using same_identity_refl.
Qed.

Lemma INVOKE_CALLBACK_eq b engine e callback args st :
  Engines st !! engine = Some e →
  INVOKE_CALLBACK b engine callback args st
  = Some (invoke_slot (slot (Events b e) callback) args st).
Proof.
  intros Hv. destruct b; cbn;
    unfold INVOKE_D3D9_CALLBACK, INVOKE_D3D10_CALLBACK, INVOKE_D3D11_CALLBACK,
      INVOKE_D3D12_CALLBACK, INVOKE_ARC_CALLBACK; by rewrite Hv.
Qed.

Lemma Events_set_Events b b' tbl e :
  Events b' (set_Events b tbl e) = if decide (b = b') then tbl else Events b' e.
Proof. by destruct b, b'. Qed.

(** X15.  Each of the four setters ([set_callbacks] at the Direct3D
    variants) replaces the whole table of its variant: afterwards an
    event of that variant is dispatched to the slot of the table just
    given and to nothing else, so a slot that the earlier table had set
    and the new one leaves empty is not called any more. *)
Theorem set_callbacks_then_invoke (b : Backend) (Engine : Z)
    (tbl : gmap string Z) (callback : string) (args : list Z) (st : Process)
    (e : INDICIUM_ENGINE) :
  b ≠ ARC →
  Engine ≠ nullptr →
  Engines st !! Engine = Some e →
  ∃ st' e',
    set_callbacks b Engine tbl st = Some st'
    ∧ Engines st' !! Engine = Some e'
    ∧ Events b e' = tbl
    ∧ INVOKE_CALLBACK b Engine callback args st'
      = Some (if nonnull (slot tbl callback)
              then emit [EvCallback (slot tbl callback) args] st'
              else st').
Proof.
  intros _ HE Hv. unfold set_callbacks. rewrite (nonnull_of_ne _ HE), Hv. cbn.
  eexists _, (set_Events b tbl e). split; [reflexivity|].
  assert (Hl : Engines (store_engine Engine (set_Events b tbl e) st) !! Engine
               = Some (set_Events b tbl e)) by apply lookup_insert_eq.
  split; [exact Hl|].
  assert (Ht : Events b (set_Events b tbl e) = tbl).
  { rewrite Events_set_Events. by rewrite decide_True. }
  split; [exact Ht|].
  rewrite (INVOKE_CALLBACK_eq _ _ _ _ _ _ Hl), Ht. reflexivity.
Qed.

Lemma set_callbacks_then_invoke_witness :
  (D3D9 ≠ ARC ∧ 1000 ≠ nullptr
   ∧ Engines with_callbacks !! 1000
     = Some (set_Events D3D9 sample_table sample_engine))
  ∧ ∃ st' e',
      IndiciumEngineSetD3D9EventCallbacks 1000 ∅ with_callbacks = Some st'
      ∧ Engines st' !! 1000 = Some e'
      ∧ Events D3D9 e' = ∅
      ∧ INVOKE_D3D9_CALLBACK 1000 "EvtIndiciumD3D9Present" [11; 12] st'
        = Some (if nonnull (slot ∅ "EvtIndiciumD3D9Present")
                then emit [EvCallback (slot ∅ "EvtIndiciumD3D9Present") [11; 12]] st'
                else st').
Proof.
  split; [split; [discriminate | split; [discriminate | reflexivity]]|].
  exact (set_callbacks_then_invoke D3D9 1000 ∅ "EvtIndiciumD3D9Present" [11; 12]
           with_callbacks (set_Events D3D9 sample_table sample_engine)
           ltac:(discriminate) ltac:(discriminate) eq_refl).
Defined.

(** X16.  A setter touches the table of its own variant only: the tables
    of the other variants, the custom context and the fields written at
    creation are as before, and so are the other engines, the registry,
    the heap and the trace (no call is made). *)
Theorem set_callbacks_frame (b : Backend) (Engine : Z) (tbl : gmap string Z)
    (st : Process) (e : INDICIUM_ENGINE) :
  b ≠ ARC →
  Engine ≠ nullptr →
  Engines st !! Engine = Some e →
  ∃ st' e',
    set_callbacks b Engine tbl st = Some st'
    ∧ Engines st' !! Engine = Some e'
    ∧ (∀ b', b' ≠ b → Events b' e' = Events b' e)
    ∧ CustomContext e' = CustomContext e
    ∧ GameVersion e' = GameVersion e
    ∧ same_identity e e'
    ∧ (∀ q, q ≠ Engine → Engines st' !! q = Engines st !! q)
    ∧ g_EngineHostInstances st' = g_EngineHostInstances st
    ∧ Blocks st' = Blocks st
    ∧ Trace st' = Trace st.
Proof.
  intros _ HE Hv. unfold set_callbacks. rewrite (nonnull_of_ne _ HE), Hv. cbn.
  eexists _, (set_Events b tbl e). split; [reflexivity|].
  split; [apply lookup_insert_eq|]. split.
  { intros b' Hb. rewrite Events_set_Events. by rewrite decide_False. }
  repeat split.
  intros q Hq. by apply lookup_insert_ne.
Qed.

Lemma set_callbacks_frame_witness :
  (D3D10 ≠ ARC ∧ 1000 ≠ nullptr
   ∧ Engines with_callbacks !! 1000
     = Some (set_Events D3D9 sample_table sample_engine))
  ∧ ∃ st' e',
      IndiciumEngineSetD3D10EventCallbacks 1000 ∅ with_callbacks = Some st'
      ∧ Engines st' !! 1000 = Some e'
      ∧ Events D3D9 e' = sample_table.
Proof.
  split; [split; [discriminate | split; [discriminate | reflexivity]]|].
  destruct (set_callbacks_frame D3D10 1000 ∅ with_callbacks
              (set_Events D3D9 sample_table sample_engine)
              ltac:(discriminate) ltac:(discriminate) eq_refl)
    as (st' & e' & Hs & He & Hother & _).
  exists st', e'. split; [exact Hs|]. split; [exact He|].
  rewrite (Hother D3D9 ltac:(discriminate)). reflexivity.
Defined.

Lemma create_returned_engine DEBUG os h cfg out st p st' :
  IndiciumEngineCreate DEBUG os h cfg out st
    = (Returns INDICIUM_ERROR_NONE, Some p, st') →
  p = malloc_engine_ret os
  ∧ Engines st' !! p = Some (fresh_engine os h cfg).
Proof.
  intros Hc.
  destruct (g_EngineHostInstances st !! h) as [q|] eqn:Hh.
  { unfold IndiciumEngineCreate in Hc. rewrite Hh in Hc. discriminate Hc. }
  rewrite (create_unregistered _ _ _ _ _ _ Hh) in Hc. cbv zeta in Hc.
  destruct (GetModuleHandleEx_ret os); cbn [negb] in Hc; [|discriminate Hc].
  destruct (nonnull (malloc_engine_ret os)); cbn [negb] in Hc; [|discriminate Hc].
  destruct (logger_registered st); [discriminate Hc|].
  destruct (nonnull (CreateThread_ret os)); cbn [negb] in Hc; [|discriminate Hc].
  destruct (nonnull out); [|discriminate Hc].
  injection Hc as <- <-. split; [done|]. cbn. apply lookup_insert_eq.
Qed.

(** X17.  On an engine that was just created, every event of every
    backend variant is dispatched to nobody: the tables are zeroed, the
    invocation makes no call and leaves the process as it is. *)
Theorem fresh_engine_dispatch (DEBUG : bool) (os : CreateEnv) (h : Z)
    (cfg : INDICIUM_ENGINE_CONFIG) (Engine : Z) (st st' : Process) (p : Z)
    (b : Backend) (callback : string) (args : list Z) :
  IndiciumEngineCreate DEBUG os h cfg Engine st
    = (Returns INDICIUM_ERROR_NONE, Some p, st') →
  INVOKE_CALLBACK b p callback args st' = Some st'.
Proof.
  intros Hc. destruct (create_returned_engine _ _ _ _ _ _ _ _ Hc) as [_ He].
  rewrite (INVOKE_CALLBACK_eq _ _ _ _ _ _ He).
  by destruct b.
Qed.

Lemma fresh_engine_dispatch_witness :
  IndiciumEngineCreate false (sample_os 1000) 4096 sample_config 500 initial
    = (Returns INDICIUM_ERROR_NONE, Some 1000, one_engine)
  ∧ INVOKE_CALLBACK D3D11 1000 "EvtIndiciumD3D11Present" [1] one_engine
    = Some one_engine.
Proof.
  assert (H : IndiciumEngineCreate false (sample_os 1000) 4096 sample_config 500
                initial
              = (Returns INDICIUM_ERROR_NONE, Some 1000, one_engine))
    by reflexivity.
  exact (conj H (fresh_engine_dispatch false (sample_os 1000) 4096 sample_config
                   500 initial one_engine 1000 D3D11 "EvtIndiciumD3D11Present"
                   [1] H)).
Defined.

(** X18.  The game-hooked notification goes to the callback of the
    configuration that was passed to create: on the engine a successful
    create returned, [INVOKE_INDICIUM_GAME_HOOKED] calls that callback
    once, with the engine and the version, when it is not null, and does
    nothing when it is null. *)
Theorem game_hooked_uses_config (DEBUG : bool) (os : CreateEnv) (h : Z)
    (cfg : INDICIUM_ENGINE_CONFIG) (Engine : Z) (st st' : Process)
    (p version : Z) :
  IndiciumEngineCreate DEBUG os h cfg Engine st
    = (Returns INDICIUM_ERROR_NONE, Some p, st') →
  INVOKE_INDICIUM_GAME_HOOKED p version st'
  = Some (if nonnull (EvtIndiciumGameHooked cfg)
          then emit [EvGameHooked (EvtIndiciumGameHooked cfg) p version] st'
          else st').
Proof.
  intros Hc. destruct (create_returned_engine _ _ _ _ _ _ _ _ Hc) as [_ He].
  unfold INVOKE_INDICIUM_GAME_HOOKED. by rewrite He.
Qed.

Lemma game_hooked_uses_config_witness :
  IndiciumEngineCreate false (sample_os 1000) 4096 sample_config 500 initial
    = (Returns INDICIUM_ERROR_NONE, Some 1000, one_engine)
  ∧ INVOKE_INDICIUM_GAME_HOOKED 1000 9 one_engine
    = Some (if nonnull (EvtIndiciumGameHooked sample_config)
            then emit [EvGameHooked (EvtIndiciumGameHooked sample_config) 1000 9]
                   one_engine
            else one_engine).
Proof.
  assert (H : IndiciumEngineCreate false (sample_os 1000) 4096 sample_config 500
                initial
              = (Returns INDICIUM_ERROR_NONE, Some 1000, one_engine))
    by reflexivity.
  exact (conj H (game_hooked_uses_config false (sample_os 1000) 4096 sample_config
                   500 initial one_engine 1000 9 H)).
Defined.

(** ** Sequences of calls *)

Ltac count_events :=
  unfold attach_count, detach_count;
  rewrite ?filter_app, ?length_app; cbn [app];
  repeat first [ rewrite filter_cons_True by reflexivity
               | rewrite filter_cons_False by discriminate
               | rewrite filter_nil ];
  cbn [length]; try lia.

Lemma alloc_frame m Engine P n st r st' :
  IndiciumEngineAllocCustomContext m Engine P n st = Some (r, st') →
  g_EngineHostInstances st' = g_EngineHostInstances st
  ∧ engines_kept st st'
  ∧ attach_count (Trace st') = attach_count (Trace st)
  ∧ detach_count (Trace st') = detach_count (Trace st).
Proof.
  intros Ha. destruct (nonnull Engine) eqn:HE.
  2:{ unfold IndiciumEngineAllocCustomContext in Ha. rewrite HE in Ha.
      injection Ha as <- <-. split; [done|].
      split; [by apply engines_kept_refl | done]. }
  apply nonnull_true in HE.
  destruct (Engines st !! Engine) as [e|] eqn:Hv.
  2:{ unfold IndiciumEngineAllocCustomContext in Ha.
      rewrite (nonnull_of_ne _ HE), Hv in Ha. discriminate Ha. }
  pose proof (alloc_trace _ _ _ HE Hv _ _ _ _ _ Ha) as Htr.
  rewrite (alloc_unfold _ _ _ HE Hv) in Ha. cbv zeta in Ha.
  assert (Hst : g_EngineHostInstances st' = g_EngineHostInstances st
                ∧ Engines st' = <[Engine := set_CustomContext m e]> (Engines st)).
  { destruct (nonnull m) eqn:Hm; cbn [negb] in Ha.
    - pose proof Hm as Hm'. apply nonnull_true in Hm.
      rewrite (memcpy_fresh _ _ _ _ _ _ Hm) in Ha.
      case_decide; [|done]. unfold malloc in Ha. rewrite Hm' in Ha.
      cbn in Ha. by injection Ha as <- <-.
    - unfold malloc in Ha. rewrite Hm in Ha. by injection Ha as <- <-. }
  destruct Hst as [Hg He]. split; [done|]. split.
  - intros q eq Hq. rewrite He, lookup_insert. case_decide.
    + subst q. assert (eq = e) as -> by congruence.
      eexists. split; [done|]. by repeat split.
    + eauto using same_identity_refl.
  - rewrite Htr. split; count_events.
Qed.

Lemma free_frame Engine st r st' :
  IndiciumEngineFreeCustomContext Engine st = Some (r, st') →
  g_EngineHostInstances st' = g_EngineHostInstances st
  ∧ engines_kept st st'
  ∧ attach_count (Trace st') = attach_count (Trace st)
  ∧ detach_count (Trace st') = detach_count (Trace st).
Proof.
  unfold IndiciumEngineFreeCustomContext.
  destruct (nonnull Engine); cbn [negb].
  2:{ intros [= <- <-]. split; [done|]. split; [by apply engines_kept_refl|done]. }
  destruct (Engines st !! Engine) as [e|]; [|done]. cbn.
  destruct (nonnull (CustomContext e)); intros [= <- <-].
  - split; [done|]. split; [by apply engines_kept_refl|]. cbn. split; count_events.
  - split; [done|]. split; [by apply engines_kept_refl|done].
Qed.

Lemma set_callbacks_quiet b Engine tbl st st' :
  set_callbacks b Engine tbl st = Some st' →
  g_EngineHostInstances st' = g_EngineHostInstances st
  ∧ engines_kept st st'
  ∧ Trace st' = Trace st.
Proof.
  unfold set_callbacks. destruct (nonnull Engine); cbn [negb].
  2:{ intros [= <-]. split; [done|]. split; [by apply engines_kept_refl|done]. }
  destruct (Engines st !! Engine) as [e|] eqn:Hv; [|done]. cbn.
  intros [= <-]. split; [done|]. split; [|done].
  eapply engines_kept_store; [done | exact Hv | by repeat split].
Qed.

Lemma host_log_frame lv text st st' :
  host_log lv text st = Some st' →
  g_EngineHostInstances st' = g_EngineHostInstances st
  ∧ engines_kept st st'
  ∧ attach_count (Trace st') = attach_count (Trace st)
  ∧ detach_count (Trace st') = detach_count (Trace st).
Proof.
  unfold host_log. destruct (logger_registered st); [|done].
  intros [= <-]. split; [done|]. split; [by apply engines_kept_refl|].
  cbn. split; count_events.
Qed.

Lemma destroy_frame h st r st' :
  IndiciumEngineDestroy h st = Some (r, st') →
  Engines st' = Engines st
  ∧ attach_count (Trace st') = attach_count (Trace st)
  ∧ ((g_EngineHostInstances st !! h = None ∧ st' = st)
     ∨ (is_Some (g_EngineHostInstances st !! h)
        ∧ g_EngineHostInstances st' = delete h (g_EngineHostInstances st)
        ∧ detach_count (Trace st') = S (detach_count (Trace st)))).
Proof.
  unfold IndiciumEngineDestroy.
  destruct (g_EngineHostInstances st !! h) as [p|] eqn:Hh.
  - destruct (Engines st !! p) as [e|]; [|done]. cbn. intros [= <- <-].
    split; [done|]. cbn. split; [count_events|].
    right. split; [eauto|]. split; [done|]. count_events.
  - intros [= <- <-]. split; [done|]. split; [done|]. by left.
Qed.

Lemma create_frame DEBUG os h cfg out st :
  let st' := (IndiciumEngineCreate DEBUG os h cfg out st).2 in
  detach_count (Trace st') = detach_count (Trace st)
  ∧ ((is_Some (g_EngineHostInstances st !! h) ∧ st' = st)
     ∨ (g_EngineHostInstances st !! h = None
        ∧ attach_count (Trace st') = S (attach_count (Trace st))
        ∧ (g_EngineHostInstances st' = g_EngineHostInstances st
           ∨ (logger_registered st = false
              ∧ g_EngineHostInstances st'
                = <[h := malloc_engine_ret os]> (g_EngineHostInstances st)))
        ∧ (Engines st' = Engines st
           ∨ ∃ e, Engines st' = <[malloc_engine_ret os := e]> (Engines st)))).
Proof.
  cbv zeta.
  destruct (g_EngineHostInstances st !! h) as [q|] eqn:Hh.
  { unfold IndiciumEngineCreate. rewrite Hh. cbn. split; [done|]. left. eauto. }
  rewrite (create_unregistered _ _ _ _ _ _ Hh). cbv zeta.
  destruct (GetModuleHandleEx_ret os); cbn [negb].
  2:{ cbn. split; [count_events|]. right. split; [done|].
      split; [count_events|]. split; by left. }
  destruct (nonnull (malloc_engine_ret os)); cbn [negb].
  2:{ cbn. split; [count_events|]. right. split; [done|].
      split; [count_events|]. split; by left. }
  destruct (logger_registered st) eqn:Hl.
  { cbn. split; [count_events|]. right. split; [done|].
    split; [count_events|]. split; [by left | right; eauto]. }
  destruct (nonnull (CreateThread_ret os)); cbn [negb]; cbn.
  - split; [unfold logging_setup; destruct DEBUG, (EnableLogging cfg); count_events|].
    right. split; [done|].
    split; [unfold logging_setup; destruct DEBUG, (EnableLogging cfg); count_events|].
    split; [by right|]. right. eexists. apply insert_insert_eq.
  - split; [unfold logging_setup; destruct DEBUG, (EnableLogging cfg); count_events|].
    right. split; [done|].
    split; [unfold logging_setup; destruct DEBUG, (EnableLogging cfg); count_events|].
    split; [by left|]. right. eexists. apply insert_insert_eq.
Qed.

(** X19.  No call of the interface rewrites what creation wrote into an
    engine: after any call that returns, every engine structure that was
    there is still there with the same host module, the same
    configuration snapshot, the same thread handle and the same
    cancellation event.  For a create this supposes that the allocator
    hands out an address that holds no engine. *)
Theorem call_keeps_identity (c : Call) (st st' : Process) :
  (∀ DEBUG os h cfg out,
     c = CallCreate DEBUG os h cfg out →
     Engines st !! malloc_engine_ret os = None) →
  call c st = Some st' →
  engines_kept st st'.
Proof.
  intros Hfresh Hc.
  destruct c as [D os h cfg out | h | m E P n | E | E t | E t | E t | E t | text | text | text | text]; cbn in Hc.
  - injection Hc as <-.
    destruct (create_frame D os h cfg out st)
      as [_ [[_ Heq]|(_ & _ & _ & [Heq|[e0 Heq]])]].
    + rewrite Heq. by apply engines_kept_refl.
    + by apply engines_kept_refl.
    + intros q e Hq. specialize (Hfresh _ _ _ _ _ eq_refl).
      rewrite Heq, lookup_insert_ne by congruence. eauto using same_identity_refl.
  - destruct (IndiciumEngineDestroy h st) as [[r s]|] eqn:Hd; [|done].
    injection Hc as ->. apply engines_kept_refl. by destruct (destroy_frame _ _ _ _ Hd).
  - destruct (IndiciumEngineAllocCustomContext _ _ _ _ st) as [[r s]|] eqn:Ha; [|done].
    injection Hc as ->. by destruct (alloc_frame _ _ _ _ _ _ _ Ha) as (_ & ? & _).
  - destruct (IndiciumEngineFreeCustomContext _ st) as [[r s]|] eqn:Hf; [|done].
    injection Hc as ->. by destruct (free_frame _ _ _ _ Hf) as (_ & ? & _).
  - by destruct (set_callbacks_quiet _ _ _ _ _ Hc) as (_ & ? & _).
  - by destruct (set_callbacks_quiet _ _ _ _ _ Hc) as (_ & ? & _).
  - by destruct (set_callbacks_quiet _ _ _ _ _ Hc) as (_ & ? & _).
  - by destruct (set_callbacks_quiet _ _ _ _ _ Hc) as (_ & ? & _).
  - by destruct (host_log_frame _ _ _ _ Hc) as (_ & ? & _).
  - by destruct (host_log_frame _ _ _ _ Hc) as (_ & ? & _).
  - by destruct (host_log_frame _ _ _ _ Hc) as (_ & ? & _).
  - by destruct (host_log_frame _ _ _ _ Hc) as (_ & ? & _).
Qed.

Lemma call_keeps_identity_witness :
  (∀ DEBUG os h cfg out,
     CallAllocCustomContext 6000 1000 [x03] 1 = CallCreate DEBUG os h cfg out →
     Engines with_context !! malloc_engine_ret os = None)
  ∧ is_Some (call (CallAllocCustomContext 6000 1000 [x03] 1) with_context)
  ∧ engines_kept with_context
      (default with_context (call (CallAllocCustomContext 6000 1000 [x03] 1) with_context)).
Proof.
  assert (Hf : ∀ DEBUG os h cfg out,
             CallAllocCustomContext 6000 1000 [x03] 1
             = CallCreate DEBUG os h cfg out →
             Engines with_context !! malloc_engine_ret os = None)
    by (intros; discriminate).
  split; [exact Hf|]. split; [vm_compute; eauto|].
  apply (call_keeps_identity (CallAllocCustomContext 6000 1000 [x03] 1)
           with_context _ Hf).
  vm_compute. reflexivity.
Defined.



Lemma run_invariant (I : Process → Prop) :
  (∀ c st st', I st → call c st = Some st' → I st') →
  ∀ cs st st', I st → run cs st = Some st' → I st'.
Proof.
  intros Hstep cs. induction cs as [|c cs IH]; intros st st' Hi Hr; cbn in Hr.
  - by injection Hr as <-.
  - destruct (call c st) as [st1|] eqn:Hc; [|done]. cbn in Hr. eauto.
Qed.

Lemma call_trace_grows c st st' :
  call c st = Some st' → ∃ evs, Trace st' = Trace st ++ evs.
Proof.
  intros Hc.
  destruct c as [D os h cfg out | h | m E P n | E | E t | E t | E t | E t
                | text | text | text | text]; cbn in Hc.
  - injection Hc as <-.
    destruct (g_EngineHostInstances st !! h) as [q|] eqn:Hh.
    { unfold IndiciumEngineCreate. rewrite Hh. exists []. cbn. by rewrite app_nil_r. }
    rewrite (create_unregistered _ _ _ _ _ _ Hh). cbv zeta.
    destruct (GetModuleHandleEx_ret os); cbn [negb]; [|by eexists].
    destruct (nonnull (malloc_engine_ret os)); cbn [negb].
    2:{ eexists. cbn. by rewrite <- !app_assoc. }
    destruct (logger_registered st).
    { eexists. cbn. by rewrite <- !app_assoc. }
    destruct (nonnull (CreateThread_ret os)); cbn [negb];
      eexists; cbn; by rewrite <- !app_assoc.
  - unfold IndiciumEngineDestroy in Hc.
    destruct (g_EngineHostInstances st !! h) as [p|].
    + destruct (Engines st !! p); [|done]. injection Hc as <-. by eexists.
    + injection Hc as <-. exists []. by rewrite app_nil_r.
  - destruct (IndiciumEngineAllocCustomContext _ _ _ _ st) as [[r s]|] eqn:Ha; [|done].
    injection Hc as ->. unfold IndiciumEngineAllocCustomContext in Ha.
    destruct (nonnull E) eqn:HE; cbn [negb] in Ha.
    + destruct (Engines st !! E) as [e|] eqn:Hv; [|done].
      apply nonnull_true in HE. eexists.
      eapply (alloc_trace _ _ _ HE Hv m P n r).
      unfold IndiciumEngineAllocCustomContext.
      by rewrite (nonnull_of_ne _ HE), Hv.
    + injection Ha as <- <-. exists []. by rewrite app_nil_r.
  - unfold IndiciumEngineFreeCustomContext in Hc.
    destruct (nonnull E); cbn [negb] in Hc.
    + destruct (Engines st !! E) as [e|]; [|done]. cbn in Hc.
      destruct (nonnull (CustomContext e)); injection Hc as <-;
        [by eexists | exists []; by rewrite app_nil_r].
    + injection Hc as <-. exists []. by rewrite app_nil_r.
  - destruct (set_callbacks_quiet _ _ _ _ _ Hc) as (_ & _ & ->).
    exists []. by rewrite app_nil_r.
  - destruct (set_callbacks_quiet _ _ _ _ _ Hc) as (_ & _ & ->).
    exists []. by rewrite app_nil_r.
  - destruct (set_callbacks_quiet _ _ _ _ _ Hc) as (_ & _ & ->).
    exists []. by rewrite app_nil_r.
  - destruct (set_callbacks_quiet _ _ _ _ _ Hc) as (_ & _ & ->).
    exists []. by rewrite app_nil_r.
  - unfold IndiciumEngineLogDebug, host_log in Hc.
    destruct (logger_registered st); [|done]. injection Hc as <-. by eexists.
  - unfold IndiciumEngineLogInfo, host_log in Hc.
    destruct (logger_registered st); [|done]. injection Hc as <-. by eexists.
  - unfold IndiciumEngineLogWarning, host_log in Hc.
    destruct (logger_registered st); [|done]. injection Hc as <-. by eexists.
  - unfold IndiciumEngineLogError, host_log in Hc.
    destruct (logger_registered st); [|done]. injection Hc as <-. by eexists.
Qed.

Lemma call_keeps_logger c st st' :
  logger_registered st = true → call c st = Some st' →
  logger_registered st' = true.
Proof.
  unfold logger_registered. intros Hl Hc.
  destruct (call_trace_grows _ _ _ Hc) as [evs ->].
  by rewrite existsb_app, Hl.
Qed.









Lemma call_attach_balance c st st' :
  attach_balance st → call c st = Some st' → attach_balance st'.
Proof.
  unfold attach_balance. intros Hb Hc.
  destruct c as [D os h cfg out | h | m E P n | E | E t | E t | E t | E t
                | text | text | text | text]; cbn in Hc.
  - injection Hc as <-.
    destruct (create_frame D os h cfg out st)
      as [Hd [[_ ->]|(Hh & Ha & Hg & _)]]; [done|].
    rewrite Hd, Ha. destruct Hg as [-> | [_ ->]]; [lia|].
    rewrite map_size_insert_None by done. lia.
  - destruct (IndiciumEngineDestroy h st) as [[r s]|] eqn:Hd; [|done].
    injection Hc as ->.
    destruct (destroy_frame _ _ _ _ Hd) as (_ & Ha & [[_ ->]|(Hs & Hg & Hdc)]); [done|].
    rewrite Ha, Hg, Hdc, map_size_delete_Some by done.
    assert (size (g_EngineHostInstances st) ≠ 0%nat).
    { intros H0. apply map_size_empty_iff in H0. rewrite H0 in Hs.
      rewrite lookup_empty in Hs. by destruct Hs. }
    lia.
  - destruct (IndiciumEngineAllocCustomContext _ _ _ _ st) as [[r s]|] eqn:Ha; [|done].
    injection Hc as ->. destruct (alloc_frame _ _ _ _ _ _ _ Ha) as (-> & _ & -> & ->).
    done.
  - destruct (IndiciumEngineFreeCustomContext _ st) as [[r s]|] eqn:Hf; [|done].
    injection Hc as ->. destruct (free_frame _ _ _ _ Hf) as (-> & _ & -> & ->).
    done.
  - by destruct (set_callbacks_quiet _ _ _ _ _ Hc) as (-> & _ & ->).
  - by destruct (set_callbacks_quiet _ _ _ _ _ Hc) as (-> & _ & ->).
  - by destruct (set_callbacks_quiet _ _ _ _ _ Hc) as (-> & _ & ->).
  - by destruct (set_callbacks_quiet _ _ _ _ _ Hc) as (-> & _ & ->).
  - by destruct (host_log_frame _ _ _ _ Hc) as (-> & _ & -> & ->).
  - by destruct (host_log_frame _ _ _ _ Hc) as (-> & _ & -> & ->).
  - by destruct (host_log_frame _ _ _ _ Hc) as (-> & _ & -> & ->).
  - by destruct (host_log_frame _ _ _ _ Hc) as (-> & _ & -> & ->).
Qed.

(** X21.  In every process reached from the start of the process by calls
    of the interface, the guard has been attached at least as often as it
    has been detached plus once for every engine still registered: each
    registered engine and each detach is matched by an attach of its own,
    and creates that failed after attaching leave attaches without a
    match. *)
Theorem reachable_attach_balance (cs : list Call) (st : Process) :
  run cs initial = Some st →
  (detach_count (Trace st) + size (g_EngineHostInstances st)
   <= attach_count (Trace st))%nat.
Proof.
  intros Hr.
  eapply (run_invariant attach_balance); [| |exact Hr].
  - intros c s s' Hs Hc. eapply call_attach_balance; eauto.
  - unfold attach_balance. cbn. rewrite map_size_empty. lia.
Qed.

Lemma reachable_attach_balance_witness :
  run sample_calls initial = Some sample_final
  ∧ (detach_count (Trace sample_final) + size (g_EngineHostInstances sample_final)
     <= attach_count (Trace sample_final))%nat.
Proof.
  assert (H : run sample_calls initial = Some sample_final)
    by (vm_compute; reflexivity).
  exact (conj H (reachable_attach_balance sample_calls sample_final H)).
Defined.

(** ** Logging facade *)

Lemma substring_0_length (m : nat) (s : string) :
  String.length (String.substring 0 m s) = Nat.min m (String.length s).
Proof.
  revert m. induction s as [|c s IH]; intros [|m]; cbn; try done.
  by rewrite IH.
Qed.

Lemma substring_0_prefix (m : nat) (s : string) :
  String.prefix (String.substring 0 m s) s = true.
Proof.
  revert m. induction s as [|c s IH]; intros [|m]; cbn; try done.
  destruct (Ascii.ascii_dec c c); [apply IH | done].
Qed.

Lemma substring_0_all (m : nat) (s : string) :
  (String.length s <= m)%nat → String.substring 0 m s = s.
Proof.
  revert m. induction s as [|c s IH]; intros [|m]; cbn; try done; try lia.
  intros Hle. f_equal. apply IH. lia.
Qed.

(** X22.  Once the logger exists, each of the four logging entry points
    hands exactly one line to the "host" logger, at its own level, and
    changes nothing else.  The line is the expanded text cut to the 999
    characters that fit the buffer: it is a prefix of the text, it is the
    whole text when that has at most 999 characters, and it is never
    longer than 999. *)
Theorem host_log_bounded (expanded : string) (st : Process) :
  logger_registered st = true →
  ∃ line,
    String.length line = Nat.min 999 (String.length expanded)
    ∧ String.prefix line expanded = true
    ∧ ((String.length expanded <= 999)%nat → line = expanded)
    ∧ IndiciumEngineLogDebug expanded st
      = Some (emit [EvLog "host" lvl_debug line] st)
    ∧ IndiciumEngineLogInfo expanded st
      = Some (emit [EvLog "host" lvl_info line] st)
    ∧ IndiciumEngineLogWarning expanded st
      = Some (emit [EvLog "host" lvl_warn line] st)
    ∧ IndiciumEngineLogError expanded st
      = Some (emit [EvLog "host" lvl_error line] st).
Proof.
  intros Hl. exists (vsnprintf buf_size expanded).
  unfold vsnprintf. change (buf_size - 1)%nat with 999%nat.
  split; [apply substring_0_length|].
  split; [apply substring_0_prefix|].
  split; [apply substring_0_all|].
  unfold IndiciumEngineLogDebug, IndiciumEngineLogInfo, IndiciumEngineLogWarning,
    IndiciumEngineLogError, host_log, vsnprintf.
  rewrite Hl. change (buf_size - 1)%nat with 999%nat. done.
Qed.

Lemma host_log_bounded_witness :
  logger_registered one_engine = true
  ∧ ∃ line,
      String.length line = Nat.min 999 (String.length "frame 1")
      ∧ String.prefix line "frame 1" = true
      ∧ ((String.length "frame 1" <= 999)%nat → line = "frame 1")
      ∧ IndiciumEngineLogDebug "frame 1" one_engine
        = Some (emit [EvLog "host" lvl_debug line] one_engine)
      ∧ IndiciumEngineLogInfo "frame 1" one_engine
        = Some (emit [EvLog "host" lvl_info line] one_engine)
      ∧ IndiciumEngineLogWarning "frame 1" one_engine
        = Some (emit [EvLog "host" lvl_warn line] one_engine)
      ∧ IndiciumEngineLogError "frame 1" one_engine
        = Some (emit [EvLog "host" lvl_error line] one_engine).
Proof.
  assert (H : logger_registered one_engine = true) by reflexivity.
  exact (conj H (host_log_bounded "frame 1" one_engine H)).
Defined.

(** X23.  A create registers the logger as soon as it has allocated the
    engine, so after a create that returned [INDICIUM_ERROR_NONE] or
    [INDICIUM_ERROR_CREATE_THREAD_FAILED] the logging entry points find
    it; and no call of the interface takes it away again: in every
    process reached from there, also after the engine was destroyed, a
    logging call returns and adds its one line. *)
Theorem logger_stays_registered (DEBUG : bool) (os : CreateEnv) (h : Z)
    (cfg : INDICIUM_ENGINE_CONFIG) (Engine : Z) (st : Process) (cs : list Call)
    (st' : Process) (expanded : string) :
  (IndiciumEngineCreate DEBUG os h cfg Engine st).1.1
    = Returns INDICIUM_ERROR_NONE
  ∨ (IndiciumEngineCreate DEBUG os h cfg Engine st).1.1
    = Returns INDICIUM_ERROR_CREATE_THREAD_FAILED →
  run cs (IndiciumEngineCreate DEBUG os h cfg Engine st).2 = Some st' →
  logger_registered st' = true
  ∧ IndiciumEngineLogInfo expanded st'
    = Some (emit [EvLog "host" lvl_info (vsnprintf buf_size expanded)] st').
Proof.
  intros Hr Hrun.
  assert (Hl : logger_registered (IndiciumEngineCreate DEBUG os h cfg Engine st).2
               = true).
  { destruct (g_EngineHostInstances st !! h) as [q|] eqn:Hh.
    { unfold IndiciumEngineCreate in Hr. rewrite Hh in Hr.
      by destruct Hr as [Hr|Hr]. }
    rewrite (create_unregistered _ _ _ _ _ _ Hh) in Hr |- *. cbv zeta in Hr |- *.
    destruct (GetModuleHandleEx_ret os); cbn [negb] in Hr |- *;
      [|by destruct Hr as [Hr|Hr]].
    destruct (nonnull (malloc_engine_ret os)); cbn [negb] in Hr |- *;
      [|by destruct Hr as [Hr|Hr]].
    destruct (logger_registered st); [by destruct Hr as [Hr|Hr]|].
    unfold logger_registered.
    destruct (nonnull (CreateThread_ret os)); cbn [negb]; cbn;
      rewrite !existsb_app; cbn; by rewrite !orb_true_r. }
  assert (Hl' : logger_registered st' = true).
  { eapply (run_invariant (λ s, logger_registered s = true)); [|exact Hl|exact Hrun].
    intros c s s' Hs Hc. eapply call_keeps_logger; eauto. }
  split; [exact Hl'|]. unfold IndiciumEngineLogInfo, host_log. by rewrite Hl'.
Qed.

Lemma logger_stays_registered_witness :
  ((IndiciumEngineCreate false (sample_os 1000) 4096 sample_config 500 initial).1.1
     = Returns INDICIUM_ERROR_NONE
   ∨ (IndiciumEngineCreate false (sample_os 1000) 4096 sample_config 500 initial).1.1
     = Returns INDICIUM_ERROR_CREATE_THREAD_FAILED)
  ∧ run [CallDestroy 4096]
      (IndiciumEngineCreate false (sample_os 1000) 4096 sample_config 500 initial).2
    = Some one_destroyed
  ∧ logger_registered one_destroyed = true
  ∧ IndiciumEngineLogInfo "bye" one_destroyed
    = Some (emit [EvLog "host" lvl_info (vsnprintf buf_size "bye")] one_destroyed).
Proof.
  assert (Hr : (IndiciumEngineCreate false (sample_os 1000) 4096 sample_config 500
                  initial).1.1 = Returns INDICIUM_ERROR_NONE
               ∨ (IndiciumEngineCreate false (sample_os 1000) 4096 sample_config 500
                    initial).1.1 = Returns INDICIUM_ERROR_CREATE_THREAD_FAILED)
    by (left; reflexivity).
  assert (Hrun : run [CallDestroy 4096]
                   (IndiciumEngineCreate false (sample_os 1000) 4096 sample_config
                      500 initial).2 = Some one_destroyed)
    by (vm_compute; reflexivity).
  split; [exact Hr|]. split; [exact Hrun|].
  exact (logger_stays_registered false (sample_os 1000) 4096 sample_config 500
           initial [CallDestroy 4096] one_destroyed "bye" Hr Hrun).
Defined.
